(** * speechrate.py: context windows and speech rate

    A shallow embedding of [get_context] and [get_speechrate] of
    [speechrate.py], and the properties of the two functions.

    Python values are modelled as follows.
    - [str] is [string]; a character is a code point below 256.
    - [int] is [Z]; list indices and slice bounds follow Python's rules
      for negative and out-of-range values.
    - [float] is an abstract number type [F] with the operations the
      program uses (class [Float]) and the order laws that round-to-nearest
      arithmetic on finite doubles satisfies (class [FloatLaws]).  The
      instance used to run the program on concrete lines is [Qc], exact
      rational arithmetic on decimal literals.
    - an exception is a constructor of [exn]; a computation that can raise
      returns a [result]. *)

From Stdlib Require Import List String Ascii ZArith Bool Lia Sorted.
From Stdlib Require Import QArith Qcanon.
Import ListNotations.

Local Open Scope string_scope.
Local Open Scope Z_scope.
Local Open Scope list_scope.

(** ** Exceptions *)

(** The two built-in exceptions the program can raise: [ValueError] (tuple
    unpacking of a one-element list, [float] of a string that is no number)
    and [IndexError] (subscript out of range). *)
Inductive exn : Type :=
| ValueError
| IndexError.

Inductive result (A : Type) : Type :=
| Ok (a : A)
| Raise (e : exn).

Arguments Ok {A} a.
Arguments Raise {A} e.

Definition bind {A B : Type} (m : result A) (k : A -> result B) : result B :=
  match m with
  | Ok a => k a
  | Raise e => Raise e
  end.

Notation "x <- m ;; k" := (bind m (fun x => k))
  (at level 61, m at next level, right associativity).

(** A list comprehension whose element expression can raise: the elements
    are evaluated in order and the first exception ends the comprehension. *)
Fixpoint comprehension {A B : Type} (f : A -> result B) (l : list A)
  : result (list B) :=
  match l with
  | [] => Ok []
  | a :: l' =>
      b <- f a ;;
      bs <- comprehension f l' ;;
      Ok (b :: bs)
  end.

(** ** Python strings *)

Module PyStr.

(** [str.isspace] on a code point below 256. *)
Definition is_space (c : ascii) : bool :=
  let n := nat_of_ascii c in
  (((9 <=? n) && (n <=? 13)) || ((28 <=? n) && (n <=? 32))
   || (n =? 133) || (n =? 160))%nat.

Fixpoint lstrip (s : string) : string :=
  match s with
  | EmptyString => EmptyString
  | String c s' => if is_space c then lstrip s' else s
  end.

(** [rstrip] drops a character when it is white space and everything
    after it has been dropped. *)
Fixpoint rstrip (s : string) : string :=
  match s with
  | EmptyString => EmptyString
  | String c s' =>
      match rstrip s' with
      | EmptyString => if is_space c then EmptyString else String c EmptyString
      | r => String c r
      end
  end.

(** [s.strip()] *)
Definition strip (s : string) : string := rstrip (lstrip s).

Definition is_blank (c : ascii) : bool := Ascii.eqb c " ".

(** [s.split(" ", maxsplit)]: split at single blanks, at most [maxsplit]
    times, from the left; blanks in a row give empty fields. *)
Fixpoint split (s : string) (maxsplit : nat) {struct s} : list string :=
  match s with
  | EmptyString => [EmptyString]
  | String c s' =>
      match maxsplit with
      | O => [s]
      | S m =>
          if is_blank c then EmptyString :: split s' m
          else
            match split s' maxsplit with
            | w :: ws => String c w :: ws
            | [] => [String c EmptyString]
            end
      end
  end.

(** [str.upper] on the letters a to z; the break labels are made of
    characters in the ASCII range, which is where it matters. *)
Definition upper_char (c : ascii) : ascii :=
  let n := nat_of_ascii c in
  if ((97 <=? n) && (n <=? 122))%nat then ascii_of_nat (n - 32) else c.

Fixpoint upper (s : string) : string :=
  match s with
  | EmptyString => EmptyString
  | String c s' => String (upper_char c) (upper s')
  end.

(** [s.startswith(prefixes)] with a tuple of prefixes. *)
Definition startswith (s : string) (prefixes : list string) : bool :=
  existsb (fun p => String.prefix p s) prefixes.

(** [" " in s] *)
Fixpoint has_blank (s : string) : bool :=
  match s with
  | EmptyString => false
  | String c s' => is_blank c || has_blank s'
  end.

End PyStr.

(** ** Python lists *)

Module PyList.

(** A slice bound [i] of a list of length [len]: a negative bound counts
    from the end, and the result is clamped to [0 .. len]. *)
Definition bound (len i : Z) : Z :=
  if i <? 0 then Z.max 0 (i + len) else Z.min i len.

(** [l[start:stop]] *)
Definition slice {A : Type} (l : list A) (start stop : Z) : list A :=
  let len := Z.of_nat (List.length l) in
  let a := bound len start in
  let b := bound len stop in
  firstn (Z.to_nat (b - a)) (skipn (Z.to_nat a) l).

(** [l.index(x)], [None] when [x] is not in [l]. *)
Fixpoint index (x : string) (l : list string) : option nat :=
  match l with
  | [] => None
  | y :: l' => if String.eqb y x then Some O else option_map S (index x l')
  end.

(** [l[-1]] *)
Definition last_item {A : Type} (l : list A) : result A :=
  match rev l with
  | [] => Raise IndexError
  | a :: _ => Ok a
  end.

(** [l[i]] for [i >= 0] *)
Definition item {A : Type} (l : list A) (i : nat) : result A :=
  match nth_error l i with
  | Some a => Ok a
  | None => Raise IndexError
  end.

End PyList.

(** ** Floats *)

(** The operations of Python's [float] that the program uses.  [float_of]
    is the constructor [float(s)] ([None] when it raises [ValueError]);
    [fdiv x n] is the division of a float by a positive [int]; [flt] is
    [<]. *)
Class Float (F : Type) : Type := {
  float_of : string -> option F;
  fzero : F;
  fadd : F -> F -> F;
  fsub : F -> F -> F;
  fdiv : F -> nat -> F;
  flt : F -> F -> bool
}.

(** [x <= y] on numbers. *)
Definition fle {F : Type} `{Float F} (x y : F) : Prop := flt y x = false.

(** What the properties below use of float arithmetic.  A string that
    [float] reads is read as the same number after [str.strip];
    [<] is a strict total order on finite values;
    subtraction rounds monotonically, so it keeps the order in its first
    argument, reverses it in its second, and the difference of a number
    and a smaller one is never negative. *)
Class FloatLaws (F : Type) `{Float F} : Prop := {
  float_of_strip :
    forall s x, float_of s = Some x -> float_of (PyStr.strip s) = Some x;
  flt_asym : forall x y, flt x y = true -> flt y x = false;
  fle_trans : forall x y z, fle x y -> fle y z -> fle x z;
  fsub_nonneg : forall x y, fle x y -> fle fzero (fsub y x);
  fsub_mono_l : forall x y z, fle x y -> fle (fsub x z) (fsub y z);
  fsub_anti_r : forall x y z, fle x y -> fle (fsub z y) (fsub z x)
}.

(** ** The program *)

(** [BREAK_LABELS] *)
Definition BREAK_LABELS : list string :=
  ["<SIL>"; "<LAUGH>"; "<IVER>"; "<UNKNOWN>"; "<VOCNOISE>"; "<NOISE>";
   "{B_TRANS}"; "{E_TRANS}"].

(** [word.upper().startswith(BREAK_LABELS)] *)
Definition is_break (word : string) : bool :=
  PyStr.startswith (PyStr.upper word) BREAK_LABELS.

(** The lines "#" and "#\n" that end the header of a .words file. *)
Definition hash : string := "#".
Definition hash_nl : string := String "#" (String (ascii_of_nat 10) EmptyString).

(** Lines 92 to 99: the lines after the header, and [header_pos]. *)
Definition skip_header (lines : list string) : list string * Z :=
  match PyList.index hash lines with
  | Some h => (skipn (S h) lines, Z.of_nat h)
  | None =>
      match PyList.index hash_nl lines with
      | Some h => (skipn (S h) lines, Z.of_nat h)
      | None => (lines, 0)
      end
  end.

Section Program.

Context {F : Type} `{Float F}.

(** The entries of [l_dat] and [r_dat]: the dictionaries with the keys
    "t" and "word". *)
Record token : Type := Token { t : F; word : string }.

(** One element of the comprehensions that build [l_dat] and [r_dat],
    applied to the line [s]: [s.strip().split(" ", 1)] is unpacked into
    [time] and [trans], then the dictionary is built, "t" first.
    [strip_time] tells the right window's [float(time.strip())] from the
    left window's [float(time)]. *)
Definition parse_line (strip_time : bool) (s : string) : result token :=
  match PyStr.split (PyStr.strip s) 1 with
  | [time; trans] =>
      match float_of (if strip_time then PyStr.strip time else time) with
      | None => Raise ValueError
      | Some x =>
          w <- PyList.item (PyStr.split trans 2) 1 ;;
          Ok (Token x w)
      end
  | _ => Raise ValueError
  end.

(** The loop of lines 134 to 141 over [tokens], the reversed tail of
    [l_dat]: the distance is appended, then the label is tested. *)
Fixpoint walk_left (start_time : F) (tokens : list token) : list F :=
  match tokens with
  | [] => []
  | tok :: rest =>
      fsub start_time (t tok)
        :: (if is_break (word tok) then [] else walk_left start_time rest)
  end.

(** The loop of lines 157 to 164 over the tail of [r_dat]: the label is
    tested, then the distance is appended. *)
Fixpoint walk_right (end_time : F) (tokens : list token) : list F :=
  match tokens with
  | [] => []
  | tok :: rest =>
      if is_break (word tok) then []
      else fsub (t tok) end_time :: walk_right end_time rest
  end.

(** Lines 119 to 141: [l_dist] before its first entry is dropped. *)
Definition left_window (lines : list string) (l_start ref_pos : Z)
  : result (list F) :=
  match PyList.slice lines l_start ref_pos with
  | [] => Ok []
  | l_win =>
      l_dat <- comprehension (parse_line false) l_win ;;
      last <- PyList.last_item l_dat ;;
      Ok (walk_left (t last) (rev (tl l_dat)))
  end.

(** Lines 143 to 164: [r_dist]. *)
Definition right_window (lines : list string) (ref_pos r_end : Z)
  : result (list F) :=
  r_dat <- comprehension (parse_line true) (PyList.slice lines ref_pos r_end) ;;
  first <- PyList.item r_dat 0 ;;
  Ok (walk_right (t first) (tl r_dat)).

(** Lines 111 to 166: the body of [get_context] from the rebased
    [ref_pos] on. *)
Definition context_windows (lines : list string) (ref_pos span : Z)
  : result (list F * list F) :=
  let l_start := Z.max 0 (ref_pos - span - 2) in
  let r_end := Z.min (Z.of_nat (List.length lines)) (ref_pos + span + 1) in
  l_dist <- left_window lines l_start ref_pos ;;
  r_dist <- right_window lines ref_pos r_end ;;
  Ok (tl l_dist, r_dist).

(** [get_context(lines, ref_pos, span)] *)
Definition get_context (lines : list string) (ref_pos span : Z)
  : result (list F * list F) :=
  let '(lines, header_pos) := skip_header lines in
  let ref_pos := ref_pos - header_pos - 1 in
  context_windows lines ref_pos span.

(** [max(l)] for a list with first element [x]: the first of the largest
    elements, found with [>]. *)
Fixpoint py_max (x : F) (l : list F) : F :=
  match l with
  | [] => x
  | y :: l' => py_max (if flt x y then y else x) l'
  end.

(** [max(l)] *)
Definition max_of (l : list F) : result F :=
  match l with
  | [] => Raise ValueError
  | x :: l' => Ok (py_max x l')
  end.

(** Truth value of a list. *)
Definition truthy (l : list F) : bool :=
  match l with [] => false | _ => true end.

(** [get_speechrate(l_dist, r_dist)]; [None] is Python's [None]. *)
Definition get_speechrate (l_dist r_dist : list F) : result (option F) :=
  if truthy l_dist && truthy r_dist then
    ml <- max_of l_dist ;;
    mr <- max_of r_dist ;;
    Ok (Some (fdiv (fadd ml mr) (List.length l_dist + List.length r_dist)))
  else if truthy r_dist && negb (truthy l_dist) then
    mr <- max_of r_dist ;;
    Ok (Some (fdiv mr (List.length r_dist)))
  else if truthy l_dist then
    ml <- max_of l_dist ;;
    Ok (Some (fdiv ml (List.length l_dist)))
  else Ok None.

End Program.

(** ** Inputs *)

Section Inputs.
Context {F : Type} `{Float F}.

(** The lines after the header, and the reference position after line
    101 has rebased it: the index of the reference token in [body]. *)
Definition body (lines : list string) : list string :=
  fst (skip_header lines).

Definition rebased (lines : list string) (ref_pos : Z) : Z :=
  ref_pos - snd (skip_header lines) - 1.

(** A line the comprehensions accept. *)
Definition well_formed (s : string) : bool :=
  match parse_line false s with
  | Ok _ => true
  | Raise _ => false
  end.

(** A valid input: every line after the header is well formed, the
    rebased reference position is the index of one of them, and the span
    is not negative. *)
Definition valid_input (lines : list string) (ref_pos span : Z) : Prop :=
  forallb well_formed (body lines) = true /\
  0 <= rebased lines ref_pos < Z.of_nat (List.length (body lines)) /\
  0 <= span.

(** No element of [l] is smaller than the one before it. *)
Fixpoint nondecreasing (l : list F) : bool :=
  match l with
  | [] => true
  | x :: l' =>
      match l' with
      | [] => true
      | y :: _ => negb (flt y x) && nondecreasing l'
      end
  end.

(** The end times of the lines after the header never go down. *)
Definition chronological (lines : list string) : Prop :=
  exists tokens,
    comprehension (parse_line false) (body lines) = Ok tokens /\
    nondecreasing (map t tokens) = true.

(** The label of the line at index [i] of [lines]. *)
Definition label_at (lines : list string) (i : Z) : option string :=
  if i <? 0 then None
  else
    match nth_error lines (Z.to_nat i) with
    | Some s =>
        match parse_line false s with
        | Ok tok => Some (word tok)
        | Raise _ => None
        end
    | None => None
    end.

(** The line at index [i] carries a break label. *)
Definition break_at (lines : list string) (i : Z) : bool :=
  match label_at lines i with
  | Some w => is_break w
  | None => false
  end.

(** [m] is the largest element of [l]. *)
Definition is_max (m : F) (l : list F) : Prop :=
  In m l /\ Forall (fun x => fle x m) l.

(** The order of two tokens by their end times. *)
Definition earlier (a b : token) : Prop := fle (t a) (t b).

(** How [get_context] reads the line at index [i] when the reference
    token is at index [p]: with the comprehension of the left window
    before [p], with that of the right window from [p] on. *)
Definition read_at (p i : Z) (s : string) : result token :=
  parse_line (p <=? i) s.

(** [i] is an index of one of the two slices [lines[l_start:ref_pos]] and
    [lines[ref_pos:r_end]] of [n] lines with the reference token at index
    [p]. *)
Definition in_slices (n p span i : Z) : Prop :=
  Z.max 0 (p - span - 2) <= i < Z.min n (p + span + 1).

(** A .words file: the lines [hdr] of the header, the delimiter, and the
    annotation lines [rest]. *)
Definition with_header_lines (hdr rest : list string) : list string :=
  hdr ++ hash :: rest.

(** The index in [with_header_lines hdr rest] of the annotation line at
    index [p] of [rest]. *)
Definition index_behind (hdr : list string) (p : Z) : Z :=
  Z.of_nat (List.length hdr) + 1 + p.

(** The two lists in terms of the tokens of the recording: the tokens
    [before] the reference token, the reference token [ref] and the tokens
    [after] it.  On the left the loop runs from the token just before [ref]
    back over at most [span + 1] tokens, never over the first token of the
    recording, and the first distance is dropped; on the right it runs
    over at most [span] tokens. *)
Definition windows_of_tokens (before : list token) (ref : token)
           (after : list token) (span : nat) : list F * list F :=
  (match rev before with
   | [] => []
   | pred :: _ =>
       tl (walk_left (t pred) (firstn (S span) (rev (tl before))))
   end,
   walk_right (t ref) (firstn span after)).

(** [get_speechrate] applied to the two lists that [get_context]
    returns. *)
Definition speechrate_at (lines : list string) (ref_pos span : Z)
  : result (option F) :=
  w <- get_context lines ref_pos span ;;
  get_speechrate (fst w) (snd w).

End Inputs.

Arguments well_formed F {_} s.
Arguments valid_input F {_} lines ref_pos span.
Arguments chronological F {_} lines.
Arguments label_at F {_} lines i.
Arguments break_at F {_} lines i.

(** ** Exact decimal arithmetic as an instance of the floats *)

Module Decimal.

Definition digit (c : ascii) : option Z :=
  let n := nat_of_ascii c in
  if ((48 <=? n) && (n <=? 57))%nat then Some (Z.of_nat (n - 48)) else None.

(** Reads digits with at most one point: [m] is the number read so far
    without its point, [k] the number of digits after the point and [n]
    the number of digits. *)
Fixpoint scan (seen_point : bool) (m : Z) (k n : nat) (s : string)
  : option (Z * nat) :=
  match s with
  | EmptyString => if (n =? 0)%nat then None else Some (m, k)
  | String c s' =>
      if Ascii.eqb c "." then
        if seen_point then None else scan true m k n s'
      else
        match digit c with
        | Some d =>
            scan seen_point (10 * m + d) (if seen_point then S k else k) (S n) s'
        | None => None
        end
  end.

Definition unsigned (s : string) : option Q :=
  match scan false 0 0 0 s with
  | Some (m, k) => Some (Qred (m # Z.to_pos (10 ^ Z.of_nat k)))
  | None => None
  end.

(** The white space that [float] skips at both ends of its argument;
    unlike [str.strip] it keeps U+001C to U+001F. *)
Definition is_float_space (c : ascii) : bool :=
  let n := nat_of_ascii c in
  (((9 <=? n) && (n <=? 13)) || (n =? 32) || (n =? 133) || (n =? 160))%nat.

Fixpoint lskip (s : string) : string :=
  match s with
  | EmptyString => EmptyString
  | String c s' => if is_float_space c then lskip s' else s
  end.

Fixpoint rskip (s : string) : string :=
  match s with
  | EmptyString => EmptyString
  | String c s' =>
      match rskip s' with
      | EmptyString =>
          if is_float_space c then EmptyString else String c EmptyString
      | r => String c r
      end
  end.

Definition skip (s : string) : string := rskip (lskip s).

(** [float(s)] for a decimal literal with an optional sign, white space
    around it allowed; the value is the rational number the literal
    denotes, in lowest terms. *)
Definition parse (s : string) : option Q :=
  match skip s with
  | String "-" s' => option_map (fun q => Qred (- q)) (unsigned s')
  | String "+" s' => unsigned s'
  | s' => unsigned s'
  end.

End Decimal.

#[export] Instance Q_Float : Float Q := {
  float_of := Decimal.parse;
  fzero := 0%Q;
  fadd x y := Qred (x + y);
  fsub x y := Qred (x - y);
  fdiv x n := Qred (x / inject_Z (Z.of_nat n));
  flt x y := negb (Qle_bool y x)
}.

(** ** Sample recordings *)

(** Six lines of a .words file after its header, with end times that
    binary floats hold exactly. *)
Definition words : list string :=
  ["0.25 122 <SIL>"; "0.5 122 the"; "1.0 122 cat"; "1.5 122 sat";
   "2.5 122 on"; "3.0 122 <NOISE>"].

(** The same recording behind a one-line header. *)
Definition recording : list string := hash :: words.

(** A word between two pauses. *)
Definition between_pauses : list string :=
  [hash; "0.25 122 <sil>"; "0.5 122 oh"; "1.0 122 <LAUGH>"].

(** The scenario of the specification: lines with a time and a label. *)
Definition two_field_lines : list string :=
  ["0.10 <SIL>"; "0.50 the"; "0.90 cat"; "1.30 sat"; "1.80 <SIL>"].

(** The same tokens in the form the comprehensions read: a time, a second
    field, the label. *)
Definition three_field_lines : list string :=
  ["0.10 122 <SIL>"; "0.50 122 the"; "0.90 122 cat"; "1.30 122 sat";
   "1.80 122 <SIL>"].

(** Two header lines, the delimiter at position 2, then five annotation
    lines. *)
Definition with_header : list string :=
  "header" :: "columns" :: hash :: three_field_lines.

(** Six annotation lines without a header, a pause in the middle. *)
Definition headerless : list string :=
  ["0.25 122 um"; "0.5 122 the"; "1.0 122 cat"; "1.5 122 <SIL>";
   "2.0 122 sat"; "2.5 122 on"].

(** A word between two pauses, with words around them. *)
Definition pauses : list string :=
  [hash; "0.25 122 um"; "0.5 122 the"; "1.0 122 <sil>"; "1.5 122 oh";
   "2.0 122 <LAUGH>"; "2.5 122 well"].

(** The distances go up when the list is read backwards. *)
Definition nonincreasing {F : Type} `{Float F} (l : list F) : bool :=
  nondecreasing (rev l).

(** The recording with a line that is no annotation line, just after the
    header. *)
Definition damaged : list string := hash :: "junk" :: words.

(** A recording whose second line has a time and a label only. *)
Definition short_line : list string :=
  [hash; "0.25 122 a"; "0.5 the"; "1.0 122 c"].

(** ** White space *)

Module PyStrFacts.
Import PyStr.

Lemma rstrip_idem (s : string) : rstrip (rstrip s) = rstrip s.
Proof.
  induction s as [|c s IH]; simpl; [reflexivity|].
  destruct (rstrip s) as [|d r] eqn:E.
  - destruct (is_space c) eqn:Ec; simpl; [reflexivity|].
    now rewrite Ec.
  - change (rstrip (String c (String d r)))
      with (match rstrip (String d r) with
            | EmptyString =>
                if is_space c then EmptyString else String c EmptyString
            | String a b => String c (String a b)
            end).
    now rewrite IH.
Qed.

Lemma lstrip_head (s : string) :
  lstrip s = EmptyString \/
  exists c s', lstrip s = String c s' /\ is_space c = false.
Proof.
  induction s as [|c s IH]; simpl; [now left|].
  destruct (is_space c) eqn:Ec; [exact IH|].
  right. now exists c, s.
Qed.

Lemma rstrip_head (c : ascii) (s : string) :
  is_space c = false -> exists r, rstrip (String c s) = String c r.
Proof.
  intros Ec. simpl. destruct (rstrip s) as [|d r].
  - rewrite Ec. now exists EmptyString.
  - now exists (String d r).
Qed.

Lemma strip_idem (s : string) : strip (strip s) = strip s.
Proof.
  unfold strip.
  destruct (lstrip_head s) as [E | (c & s' & E & Ec)]; rewrite E.
  - reflexivity.
  - destruct (rstrip_head c s' Ec) as [r Er].
    rewrite Er. simpl lstrip. rewrite Ec, <- Er. apply rstrip_idem.
Qed.

End PyStrFacts.

(** ** The decimal reader and [str.strip] *)

Module DecimalFacts.
Import PyStr Decimal.

(** No character of [s] is white space for [str.strip]. *)
Fixpoint clean (s : string) : bool :=
  match s with
  | EmptyString => true
  | String c s' => negb (is_space c) && clean s'
  end.

(** Every character of [s] is white space for [float]. *)
Fixpoint skipped (s : string) : bool :=
  match s with
  | EmptyString => true
  | String c s' => is_float_space c && skipped s'
  end.

Lemma float_space_is_space (c : ascii) :
  is_float_space c = true -> is_space c = true.
Proof.
  destruct c as [[] [] [] [] [] [] [] []]; intros Hc;
    first [reflexivity | discriminate Hc].
Qed.

Lemma not_space_not_float_space (c : ascii) :
  is_space c = false -> is_float_space c = false.
Proof.
  intros Hc. destruct (is_float_space c) eqn:E; [|reflexivity].
  apply float_space_is_space in E. congruence.
Qed.

Lemma digit_not_space (c : ascii) (d : Z) :
  digit c = Some d -> is_space c = false.
Proof.
  destruct c as [[] [] [] [] [] [] [] []]; intros Hc;
    first [reflexivity | discriminate Hc].
Qed.

Lemma scan_clean (seen : bool) (m : Z) (k n : nat) (s : string)
      (r : Z * nat) :
  scan seen m k n s = Some r -> clean s = true.
Proof.
  revert seen m k n. induction s as [|c s IH]; intros seen m k n; simpl;
    [reflexivity|].
  destruct (Ascii.eqb_spec c ".") as [-> | Hc].
  - destruct seen; [discriminate|]. intros Hs. now rewrite (IH _ _ _ _ Hs).
  - destruct (digit c) as [d|] eqn:E; [|discriminate].
    intros Hs. now rewrite (digit_not_space _ _ E), (IH _ _ _ _ Hs).
Qed.

Lemma lskip_split (s : string) :
  exists a, s = (a ++ lskip s)%string /\ skipped a = true.
Proof.
  induction s as [|c s (a & E & Ha)]; simpl.
  - now exists EmptyString.
  - destruct (is_float_space c) eqn:Ec.
    + exists (String c a). simpl. rewrite Ec, Ha.
      split; [now rewrite <- E | reflexivity].
    + now exists EmptyString.
Qed.

Lemma rskip_split (s : string) :
  exists b, s = (rskip s ++ b)%string /\ skipped b = true.
Proof.
  induction s as [|c s (b & E & Hb)]; simpl.
  - now exists EmptyString.
  - destruct (rskip s) as [|d r] eqn:Er.
    + destruct (is_float_space c) eqn:Ec.
      * exists (String c b). simpl in *. rewrite Ec, Hb.
        split; [congruence | reflexivity].
      * exists b. simpl in *. split; congruence.
    + exists b. simpl in *. split; congruence.
Qed.

Lemma lstrip_skipped (a x : string) :
  skipped a = true -> lstrip (a ++ x)%string = lstrip x.
Proof.
  induction a as [|c a IH]; simpl; [reflexivity|].
  intros Ha. apply andb_true_iff in Ha as [Hc Ha].
  now rewrite (float_space_is_space _ Hc), IH.
Qed.

Lemma rstrip_skipped_all (b : string) :
  skipped b = true -> rstrip b = EmptyString.
Proof.
  induction b as [|c b IH]; simpl; [reflexivity|].
  intros Hb. apply andb_true_iff in Hb as [Hc Hb].
  now rewrite (IH Hb), (float_space_is_space _ Hc).
Qed.

Lemma rstrip_skipped (x b : string) :
  skipped b = true -> rstrip (x ++ b)%string = rstrip x.
Proof.
  intros Hb. induction x as [|c x IH]; simpl.
  - now apply rstrip_skipped_all.
  - now rewrite IH.
Qed.

Lemma rstrip_clean (s : string) : clean s = true -> rstrip s = s.
Proof.
  induction s as [|c s IH]; simpl; [reflexivity|].
  intros Hs. apply andb_true_iff in Hs as [Hc Hs].
  apply negb_true_iff in Hc. rewrite (IH Hs), Hc. now destruct s.
Qed.

Lemma rskip_clean (s : string) : clean s = true -> rskip s = s.
Proof.
  induction s as [|c s IH]; simpl; [reflexivity|].
  intros Hs. apply andb_true_iff in Hs as [Hc Hs].
  apply negb_true_iff in Hc.
  rewrite (IH Hs), (not_space_not_float_space _ Hc). now destruct s.
Qed.

Lemma lstrip_clean_app (s b : string) :
  clean s = true -> s <> EmptyString -> lstrip (s ++ b)%string = (s ++ b)%string.
Proof.
  destruct s as [|c s]; [congruence|]. simpl.
  intros Hs _. apply andb_true_iff in Hs as [Hc _].
  apply negb_true_iff in Hc. now rewrite Hc.
Qed.

Lemma lskip_clean (s : string) : clean s = true -> lskip s = s.
Proof.
  destruct s as [|c s]; [reflexivity|]. simpl.
  intros Hs. apply andb_true_iff in Hs as [Hc _].
  apply negb_true_iff in Hc. now rewrite (not_space_not_float_space _ Hc).
Qed.

(** What [float] reads has no white space inside. *)
Lemma parse_clean (s : string) (q : Q) :
  parse s = Some q -> clean (skip s) = true /\ skip s <> EmptyString.
Proof.
  unfold parse, unsigned.
  assert (Hscan : forall x, (exists q', match scan false 0 0 0 x with
                                        | Some (m, k) =>
                                            Some (Qred (m # Z.to_pos (10 ^ Z.of_nat k)))
                                        | None => None
                                        end = Some q') ->
                            clean x = true /\ x <> EmptyString).
  { intros x [q' Hx].
    destruct (scan false 0 0 0 x) as [r|] eqn:E; [|discriminate].
    split; [exact (scan_clean _ _ _ _ _ _ E)|].
    intros ->. discriminate E. }
  destruct (skip s) as [|c s'] eqn:Ek.
  - intros Hq. exfalso. destruct (Hscan EmptyString) as [_ Hne]; [|congruence].
    now exists q.
  - destruct (Ascii.eqb_spec c "-") as [-> | Hminus].
    + intros Hq. destruct (Hscan s') as [Hc _].
      { destruct (scan false 0 0 0 s') as [[m k]|]; [eauto | discriminate]. }
      split; [simpl; now rewrite Hc | discriminate].
    + destruct (Ascii.eqb_spec c "+") as [-> | Hplus].
      * intros Hq. destruct (Hscan s') as [Hc _]; [now exists q|].
        split; [simpl; now rewrite Hc | discriminate].
      * intros Hq. apply Hscan. exists q.
        destruct c as [[] [] [] [] [] [] [] []]; try exact Hq;
          congruence.
Qed.

(** A string that the reader accepts is read alike after [str.strip]. *)
Lemma parse_strip (s : string) (q : Q) :
  parse s = Some q -> parse (strip s) = Some q.
Proof.
  intros Hq. destruct (parse_clean _ _ Hq) as [Hclean Hne].
  assert (E : skip (strip s) = skip s).
  { unfold skip in *. set (core := rskip (lskip s)) in *.
    destruct (lskip_split s) as (a & Ea & Ha).
    destruct (rskip_split (lskip s)) as (b & Eb & Hb). fold core in Eb.
    assert (Es : strip s = core).
    { unfold strip. rewrite Ea, (lstrip_skipped _ _ Ha), Eb.
      rewrite (lstrip_clean_app _ _ Hclean Hne), (rstrip_skipped _ _ Hb).
      now apply rstrip_clean. }
    rewrite Es, (lskip_clean _ Hclean). now apply rskip_clean. }
  unfold parse in *. now rewrite E.
Qed.

End DecimalFacts.

Lemma fle_Q (x y : Q) : fle x y <-> (x <= y)%Q.
Proof.
  unfold fle; simpl. rewrite negb_false_iff. apply Qle_bool_iff.
Qed.

#[export] Instance Q_FloatLaws : FloatLaws Q.
Proof.
  split.
  - exact DecimalFacts.parse_strip.
  - intros x y. simpl. rewrite negb_true_iff, negb_false_iff.
    intros Hn. apply Qle_bool_iff.
    destruct (Qlt_le_dec x y) as [Hlt | Hle].
    + now apply Qlt_le_weak.
    + apply Qle_bool_iff in Hle. congruence.
  - intros x y z. rewrite !fle_Q. apply Qle_trans.
  - intros x y. rewrite !fle_Q. intros Hxy. cbn [fsub fzero Q_Float].
    rewrite Qred_correct. now apply -> Qle_minus_iff.
  - intros x y z. rewrite !fle_Q. intros Hxy. cbn [fsub Q_Float].
    rewrite !Qred_correct. unfold Qminus. now apply Qplus_le_l.
  - intros x y z. rewrite !fle_Q. intros Hxy. cbn [fsub Q_Float].
    rewrite !Qred_correct. unfold Qminus. apply Qplus_le_r.
    now apply Qopp_le_compat.
Qed.

(** ** Slices and comprehensions *)

Module PyListFacts.
Import PyList.

Section Slice.
Context {A : Type}.
Implicit Types (l : list A) (a b : Z).

(** A slice bound lies within the list. *)
Lemma bound_range (len i : Z) : 0 <= len -> 0 <= bound len i <= len.
Proof.
  unfold bound. destruct (Z.ltb_spec i 0); lia.
Qed.

Lemma slice_length l a b :
  List.length (slice l a b)
  = Z.to_nat (bound (Z.of_nat (List.length l)) b
              - bound (Z.of_nat (List.length l)) a).
Proof.
  unfold slice. rewrite length_firstn, length_skipn.
  pose proof (bound_range (Z.of_nat (List.length l)) a).
  pose proof (bound_range (Z.of_nat (List.length l)) b).
  lia.
Qed.

(** The slice is the part of [l] between the two bounds. *)
Lemma slice_infix l a b :
  exists pre post,
    l = pre ++ slice l a b ++ post /\
    List.length pre = Z.to_nat (bound (Z.of_nat (List.length l)) a).
Proof.
  unfold slice.
  set (i := Z.to_nat (bound (Z.of_nat (List.length l)) a)).
  set (k := Z.to_nat _).
  exists (firstn i l), (skipn k (skipn i l)). split.
  - now rewrite (firstn_skipn k), (firstn_skipn i).
  - rewrite length_firstn.
    pose proof (bound_range (Z.of_nat (List.length l)) a). lia.
Qed.

Lemma slice_nth_error l a b i x :
  nth_error (slice l a b) i = Some x ->
  nth_error l (Z.to_nat (bound (Z.of_nat (List.length l)) a) + i) = Some x.
Proof.
  destruct (slice_infix l a b) as (pre & post & E & Hpre).
  intros Hi. rewrite <- Hpre.
  assert (G : nth_error (pre ++ slice l a b ++ post)
                (List.length pre + i) = Some x).
  { rewrite nth_error_app2 by lia.
    replace (_ + i - _)%nat with i by lia.
    rewrite nth_error_app1; [exact Hi|].
    apply nth_error_Some. congruence. }
  now rewrite <- E in G.
Qed.

Lemma slice_Forall (P : A -> Prop) l a b :
  Forall P l -> Forall P (slice l a b).
Proof.
  destruct (slice_infix l a b) as (pre & post & E & _).
  intros Hl. rewrite E in Hl.
  apply Forall_app in Hl as [_ Hl]. now apply Forall_app in Hl as [Hl _].
Qed.

End Slice.

Lemma last_item_Ok {A : Type} (l : list A) (x : A) :
  last_item l = Ok x <-> exists l', l = l' ++ [x].
Proof.
  unfold last_item. split.
  - destruct (rev l) as [|y r] eqn:E; [discriminate|].
    intros [= ->]. exists (rev r).
    now rewrite <- (rev_involutive l), E.
  - intros [l' ->]. now rewrite rev_app_distr.
Qed.

End PyListFacts.

(** Opens the slice bounds everywhere and splits on their signs. *)
Ltac slice_cases :=
  unfold PyList.bound in *;
  repeat match goal with
         | H : context [?x <? 0] |- _ => destruct (Z.ltb_spec x 0)
         | |- context [?x <? 0] => destruct (Z.ltb_spec x 0)
         end.

(** Opens the slice bounds in [H] and splits on their signs. *)
Ltac slice_bounds H :=
  unfold PyList.bound in H;
  repeat match type of H with
         | context [?x <? 0] => destruct (Z.ltb_spec x 0)
         end.

Section Comprehension.
Context {A B : Type} (f : A -> result B).

Lemma comprehension_Ok (l : list A) (bs : list B) :
  comprehension f l = Ok bs <-> Forall2 (fun a b => f a = Ok b) l bs.
Proof.
  revert bs. induction l as [|a l IH]; intros bs; simpl.
  - split.
    + intros [= <-]. constructor.
    + intros Hbs. now inversion Hbs.
  - destruct (f a) as [b|e] eqn:Ea; simpl.
    + destruct (comprehension f l) as [bs'|e] eqn:El; simpl.
      * split.
        -- intros [= <-]. constructor; [exact Ea|]. now apply IH.
        -- intros Hbs. inversion Hbs as [|? b0 ? bs0 Hb Hrest]; subst.
           apply IH in Hrest. congruence.
      * split; [discriminate|].
        intros Hbs. inversion Hbs as [|? b0 ? bs0 Hb Hrest]; subst.
        apply IH in Hrest. discriminate.
    + split; [discriminate|].
      intros Hbs. inversion Hbs; subst. congruence.
Qed.

Lemma comprehension_total (l : list A) :
  Forall (fun a => exists b, f a = Ok b) l ->
  exists bs, comprehension f l = Ok bs.
Proof.
  induction 1 as [|a l [b Hb] _ [bs Hbs]]; simpl.
  - now exists [].
  - rewrite Hb, Hbs. simpl. now exists (b :: bs).
Qed.

Lemma comprehension_length (l : list A) (bs : list B) :
  comprehension f l = Ok bs -> List.length bs = List.length l.
Proof.
  intros Hbs. apply comprehension_Ok in Hbs.
  symmetry. exact (Forall2_length Hbs).
Qed.

(** The first element that raises decides the exception. *)
Lemma comprehension_Raise (l1 l2 : list A) (a : A) (e : exn) :
  Forall (fun a => exists b, f a = Ok b) l1 ->
  f a = Raise e ->
  comprehension f (l1 ++ a :: l2) = Raise e.
Proof.
  induction 1 as [|a1 l1 [b Hb] _ IH]; intros Ha; simpl.
  - now rewrite Ha.
  - rewrite Hb. simpl. now rewrite IH.
Qed.

End Comprehension.

(** ** The loops and the windows *)

Section Windows.
Context {F : Type} {HF : Float F} {HL : FloatLaws F}.

Lemma fle_refl (x : F) : fle x x.
Proof.
  unfold fle. destruct (flt x x) eqn:E; [|reflexivity].
  now rewrite (flt_asym x x E) in E.
Qed.

(** A line that the left window reads, with [float(time)], is read as
    the same token by the right window, with [float(time.strip())]. *)
Lemma parse_line_strip (s : string) (tok : token) :
  parse_line false s = Ok tok -> parse_line true s = Ok tok.
Proof.
  unfold parse_line.
  destruct (PyStr.split (PyStr.strip s) 1) as [|time [|trans [|? ?]]];
    try discriminate.
  destruct (float_of time) as [x|] eqn:E; [|discriminate].
  now rewrite (float_of_strip _ _ E).
Qed.

Lemma comprehension_strip (l : list string) (tokens : list token) :
  comprehension (parse_line false) l = Ok tokens ->
  comprehension (parse_line true) l = Ok tokens.
Proof.
  rewrite !comprehension_Ok. intros Hl.
  eapply Forall2_impl; [|exact Hl]. exact parse_line_strip.
Qed.

Lemma walk_left_length (s : F) (tokens : list token) :
  (List.length (walk_left s tokens) <= List.length tokens)%nat.
Proof.
  induction tokens as [|tok rest IH]; simpl; [lia|].
  destruct (is_break (word tok)); simpl; lia.
Qed.

Lemma walk_right_length (e : F) (tokens : list token) :
  (List.length (walk_right e tokens) <= List.length tokens)%nat.
Proof.
  induction tokens as [|tok rest IH]; simpl; [lia|].
  destruct (is_break (word tok)); simpl; lia.
Qed.

Lemma walk_left_In (s d : F) (tokens : list token) :
  In d (walk_left s tokens) ->
  exists tok, In tok tokens /\ d = fsub s (t tok).
Proof.
  induction tokens as [|tok rest IH]; simpl; [tauto|].
  intros [<- | Hd].
  - exists tok. auto.
  - destruct (is_break (word tok)); [destruct Hd|].
    destruct (IH Hd) as (tok' & Hin & ->). exists tok'. auto.
Qed.

Lemma walk_right_In (e d : F) (tokens : list token) :
  In d (walk_right e tokens) ->
  exists tok, In tok tokens /\ d = fsub (t tok) e.
Proof.
  induction tokens as [|tok rest IH]; simpl; [tauto|].
  destruct (is_break (word tok)); [intros []|].
  intros [<- | Hd].
  - exists tok. auto.
  - destruct (IH Hd) as (tok' & Hin & ->). exists tok'. auto.
Qed.

(** What [left_window] has done when it returns. *)
Lemma left_window_Ok (lines : list string) (l_start p : Z) (d : list F) :
  left_window lines l_start p = Ok d ->
  (PyList.slice lines l_start p = [] /\ d = []) \/
  exists l_dat init last,
    comprehension (parse_line false) (PyList.slice lines l_start p) = Ok l_dat /\
    l_dat = init ++ [last] /\
    d = walk_left (t last) (rev (tl l_dat)).
Proof.
  unfold left_window.
  destruct (PyList.slice lines l_start p) as [|s l_win] eqn:E.
  - intros [= <-]. now left.
  - destruct (comprehension (parse_line false) (s :: l_win)) as [l_dat|e];
      [|discriminate].
    cbn [bind].
    destruct (PyList.last_item l_dat) as [last|e] eqn:El; [|discriminate].
    cbn [bind]. intros [= <-]. right.
    apply PyListFacts.last_item_Ok in El as [init ->].
    now exists (init ++ [last]), init, last.
Qed.

(** What [right_window] has done when it returns. *)
Lemma right_window_Ok (lines : list string) (p r_end : Z) (d : list F) :
  right_window lines p r_end = Ok d ->
  exists first rest,
    comprehension (parse_line true) (PyList.slice lines p r_end)
    = Ok (first :: rest) /\
    d = walk_right (t first) rest.
Proof.
  unfold right_window.
  destruct (comprehension (parse_line true) _) as [r_dat|e]; [|discriminate].
  cbn [bind]. destruct r_dat as [|first rest]; [discriminate|].
  cbn. intros [= <-]. now exists first, rest.
Qed.

Lemma context_windows_Ok (lines : list string) (p span : Z) (l r : list F) :
  context_windows lines p span = Ok (l, r) ->
  exists d,
    left_window lines (Z.max 0 (p - span - 2)) p = Ok d /\
    l = tl d /\
    right_window lines p
      (Z.min (Z.of_nat (List.length lines)) (p + span + 1)) = Ok r.
Proof.
  unfold context_windows.
  destruct (left_window lines _ p) as [d|e]; [|discriminate].
  cbn [bind].
  destruct (right_window lines p _) as [r'|e]; [|discriminate].
  cbn [bind]. intros [= <- <-]. now exists d.
Qed.

Lemma get_context_unfold (lines : list string) (ref_pos span : Z) :
  get_context lines ref_pos span
  = context_windows (body lines) (rebased lines ref_pos) span.
Proof.
  unfold get_context, body, rebased.
  now destruct (skip_header lines).
Qed.

End Windows.

(** ** Results on valid inputs *)

Section Totality.
Context {F : Type} {HF : Float F} {HL : FloatLaws F}.

Lemma well_formed_Ok (s : string) :
  well_formed F s = true -> exists tok, parse_line false s = Ok tok.
Proof.
  unfold well_formed.
  destruct (parse_line false s) as [tok|]; [now exists tok | discriminate].
Qed.

Lemma well_formed_all (lines : list string) :
  forallb (well_formed F) lines = true ->
  Forall (fun s => well_formed F s = true) lines.
Proof.
  intros Hwf. apply Forall_forall. now apply forallb_forall.
Qed.

(** [left_window] returns when the lines of its slice are well formed. *)
Lemma left_window_slice_total (lines : list string) (l_start p : Z) :
  Forall (fun s => well_formed F s = true) (PyList.slice lines l_start p) ->
  exists d, left_window lines l_start p = Ok d.
Proof.
  intros Hwf. unfold left_window.
  destruct (PyList.slice lines l_start p) as [|s l_win] eqn:E;
    [now exists []|].
  destruct (comprehension_total (parse_line false) (s :: l_win)) as [l_dat Hdat].
  { eapply Forall_impl; [|exact Hwf]. exact well_formed_Ok. }
  rewrite Hdat. cbn [bind].
  pose proof (comprehension_length _ _ _ Hdat) as Hlen.
  destruct (rev l_dat) as [|last r] eqn:Er.
  - apply (f_equal (@List.length _)) in Er.
    rewrite length_rev in Er. simpl in Er, Hlen. lia.
  - unfold PyList.last_item. rewrite Er. cbn [bind]. eauto.
Qed.

Lemma left_window_total (lines : list string) (l_start p : Z) :
  forallb (well_formed F) lines = true ->
  exists d, left_window lines l_start p = Ok d.
Proof.
  intros Hwf. apply left_window_slice_total.
  now apply PyListFacts.slice_Forall, well_formed_all.
Qed.

Lemma right_window_total (lines : list string) (p r_end : Z) :
  forallb (well_formed F) lines = true ->
  0 <= p < r_end -> r_end <= Z.of_nat (List.length lines) ->
  exists d, right_window lines p r_end = Ok d.
Proof.
  intros Hwf Hp Hend. apply well_formed_all in Hwf.
  apply (PyListFacts.slice_Forall _ lines p r_end) in Hwf.
  unfold right_window.
  destruct (comprehension_total (parse_line false) (PyList.slice lines p r_end))
    as [r_dat Hdat].
  { eapply Forall_impl; [|exact Hwf]. exact well_formed_Ok. }
  rewrite (comprehension_strip _ _ Hdat). cbn [bind].
  pose proof (comprehension_length _ _ _ Hdat) as Hlen.
  rewrite PyListFacts.slice_length in Hlen.
  destruct r_dat as [|first rest];
    [simpl List.length in Hlen; slice_bounds Hlen; lia|].
  cbn. eauto.
Qed.

(** On a valid input [get_context] returns. *)
Lemma get_context_total (lines : list string) (ref_pos span : Z) :
  valid_input F lines ref_pos span ->
  exists l r, get_context lines ref_pos span = Ok (l, r).
Proof.
  intros (Hwf & Hp & Hspan). rewrite get_context_unfold.
  unfold context_windows.
  destruct (left_window_total (body lines)
              (Z.max 0 (rebased lines ref_pos - span - 2))
              (rebased lines ref_pos) Hwf) as [d ->].
  cbn [bind].
  destruct (right_window_total (body lines) (rebased lines ref_pos)
              (Z.min (Z.of_nat (List.length (body lines)))
                 (rebased lines ref_pos + span + 1)) Hwf) as [r ->];
    [lia | lia |].
  cbn [bind]. eauto.
Qed.

(** The lengths of the two lists when the reference position is not
    negative. *)
Lemma context_windows_length (lines : list string) (p span : Z)
      (l r : list F) :
  0 <= p -> 0 <= span ->
  context_windows lines p span = Ok (l, r) ->
  Z.of_nat (List.length l) <= span /\ Z.of_nat (List.length r) <= span.
Proof.
  intros Hp Hspan Hok.
  apply context_windows_Ok in Hok as (d & Hl & -> & Hr).
  split.
  - rewrite length_tl.
    apply left_window_Ok in Hl
      as [[_ ->] | (l_dat & init & last & Hdat & _ & ->)]; [simpl; lia|].
    pose proof (walk_left_length (t last) (rev (tl l_dat))) as Hw.
    rewrite length_rev, length_tl in Hw.
    apply comprehension_length in Hdat.
    rewrite PyListFacts.slice_length in Hdat.
    slice_bounds Hdat; lia.
  - apply right_window_Ok in Hr as (first & rest & Hdat & ->).
    pose proof (walk_right_length (t first) rest) as Hw.
    apply comprehension_length in Hdat.
    rewrite PyListFacts.slice_length in Hdat.
    simpl List.length in Hdat. slice_bounds Hdat; lia.
Qed.

(** Nothing precedes position 0, and nothing follows the last position. *)
Lemma context_windows_first (lines : list string) (span : Z)
      (l r : list F) :
  context_windows lines 0 span = Ok (l, r) -> l = [].
Proof.
  intros Hok. apply context_windows_Ok in Hok as (d & Hl & -> & _).
  apply left_window_Ok in Hl
    as [[_ ->] | (l_dat & init & last & Hdat & -> & _)]; [reflexivity|].
  apply comprehension_length in Hdat.
  rewrite PyListFacts.slice_length, length_app in Hdat.
  simpl List.length in Hdat. slice_bounds Hdat; lia.
Qed.

Lemma context_windows_last (lines : list string) (span : Z)
      (l r : list F) :
  context_windows lines (Z.of_nat (List.length lines) - 1) span = Ok (l, r) ->
  r = [].
Proof.
  intros Hok. apply context_windows_Ok in Hok as (d & _ & _ & Hr).
  apply right_window_Ok in Hr as (first & rest & Hdat & ->).
  destruct rest as [|tok rest]; [reflexivity|].
  apply comprehension_length in Hdat.
  rewrite PyListFacts.slice_length in Hdat.
  set (n := Z.of_nat (List.length lines)) in *.
  pose proof (PyListFacts.bound_range n (Z.min n (n - 1 + span + 1))).
  unfold PyList.bound in Hdat at 2. simpl List.length in Hdat.
  destruct (Z.ltb_spec (n - 1) 0); lia.
Qed.

End Totality.

(** ** Sorted lists *)

Section SortedFacts.
Context {A : Type} (R : A -> A -> Prop).

Lemma StronglySorted_app_inv (l1 l2 : list A) :
  StronglySorted R (l1 ++ l2) ->
  StronglySorted R l1 /\ StronglySorted R l2 /\
  (forall x y, In x l1 -> In y l2 -> R x y).
Proof.
  induction l1 as [|a l1 IH]; simpl; intros Hs.
  - repeat split; [constructor | exact Hs | intros x y []].
  - apply StronglySorted_inv in Hs as [Hs Ha].
    destruct (IH Hs) as (H1 & H2 & H12).
    apply Forall_app in Ha as [Ha1 Ha2].
    repeat split; [now constructor | exact H2 |].
    intros x y [<- | Hx] Hy.
    + rewrite Forall_forall in Ha2. now apply Ha2.
    + now apply H12.
Qed.

Lemma StronglySorted_app (l1 l2 : list A) :
  StronglySorted R l1 -> StronglySorted R l2 ->
  (forall x y, In x l1 -> In y l2 -> R x y) ->
  StronglySorted R (l1 ++ l2).
Proof.
  induction 1 as [|a l1 H1 IH Ha]; simpl; intros H2 H12; [exact H2|].
  constructor.
  - apply IH; [exact H2|]. intros x y Hx Hy. apply H12; [now right | exact Hy].
  - apply Forall_app. split; [exact Ha|].
    apply Forall_forall. intros y Hy. apply H12; [now left | exact Hy].
Qed.

Lemma StronglySorted_tl (l : list A) :
  StronglySorted R l -> StronglySorted R (tl l).
Proof.
  destruct 1; simpl; [constructor | assumption].
Qed.

End SortedFacts.

Lemma StronglySorted_rev {A : Type} (R : A -> A -> Prop) (l : list A) :
  StronglySorted R l -> StronglySorted (fun x y => R y x) (rev l).
Proof.
  induction 1 as [|a l Hl IH Ha]; simpl; [constructor|].
  apply StronglySorted_app; [exact IH | repeat constructor |].
  intros x y Hx [<- | []].
  apply in_rev in Hx. rewrite Forall_forall in Ha. now apply Ha.
Qed.

Lemma StronglySorted_map {A B : Type} (R : B -> B -> Prop) (f : A -> B)
      (l : list A) :
  StronglySorted R (map f l) -> StronglySorted (fun x y => R (f x) (f y)) l.
Proof.
  induction l as [|a l IH]; simpl; intros Hs; [constructor|].
  apply StronglySorted_inv in Hs as [Hs Ha].
  constructor; [now apply IH|].
  apply Forall_forall. intros x Hx.
  rewrite Forall_forall in Ha. apply Ha. now apply in_map.
Qed.

Section Order.
Context {F : Type} {HF : Float F} {HL : FloatLaws F}.

Lemma nondecreasing_sorted (l : list F) :
  nondecreasing l = true <-> StronglySorted fle l.
Proof.
  induction l as [|x l IH]; [split; [constructor | reflexivity]|].
  destruct l as [|y l].
  - split; [repeat constructor | reflexivity].
  - change (nondecreasing (x :: y :: l))
      with (negb (flt y x) && nondecreasing (y :: l)).
    rewrite andb_true_iff, negb_true_iff, IH. split.
    + intros [Hxy Hs]. constructor; [exact Hs|].
      constructor; [exact Hxy|].
      apply StronglySorted_inv in Hs as [_ Hy].
      eapply Forall_impl; [|exact Hy].
      intros z Hyz. exact (fle_trans x y z Hxy Hyz).
    + intros Hs. apply StronglySorted_inv in Hs as [Hs Hx].
      split; [|exact Hs]. now inversion Hx.
Qed.

(** The distances of the left loop grow when the tokens go back in
    time. *)
Lemma walk_left_sorted (s : F) (tokens : list token) :
  StronglySorted (fun a b => earlier b a) tokens ->
  StronglySorted fle (walk_left s tokens).
Proof.
  induction 1 as [|tok rest Hs IH Hrest]; simpl; [constructor|].
  constructor.
  - destruct (is_break (word tok)); [constructor | exact IH].
  - destruct (is_break (word tok)); [constructor|].
    apply Forall_forall. intros d Hd.
    apply walk_left_In in Hd as (tok' & Hin & ->).
    rewrite Forall_forall in Hrest.
    apply fsub_anti_r. now apply Hrest.
Qed.

(** The distances of the right loop grow with the end times. *)
Lemma walk_right_sorted (e : F) (tokens : list token) :
  StronglySorted earlier tokens ->
  StronglySorted fle (walk_right e tokens).
Proof.
  induction 1 as [|tok rest Hs IH Hrest]; simpl; [constructor|].
  destruct (is_break (word tok)); [constructor|].
  constructor; [exact IH|].
  apply Forall_forall. intros d Hd.
  apply walk_right_In in Hd as (tok' & Hin & ->).
  rewrite Forall_forall in Hrest.
  apply fsub_mono_l. now apply Hrest.
Qed.

(** When every line is read by the left window's comprehension, what the
    right window's comprehension makes of a slice is what the left one
    makes of it. *)
Lemma slice_tokens_read (lines : list string) (tokens dat : list token)
      (a b : Z) :
  comprehension (parse_line false) lines = Ok tokens ->
  comprehension (parse_line true) (PyList.slice lines a b) = Ok dat ->
  comprehension (parse_line false) (PyList.slice lines a b) = Ok dat.
Proof.
  intros Htok Hdat.
  destruct (PyListFacts.slice_infix lines a b) as (pre & post & E & _).
  rewrite E in Htok. apply comprehension_Ok in Htok.
  apply Forall2_app_inv_l in Htok as (tpre & trest & _ & Htok & _).
  apply Forall2_app_inv_l in Htok as (tdat & tpost & Htok & _ & _).
  apply comprehension_Ok in Htok.
  pose proof (comprehension_strip _ _ Htok) as Htrue. congruence.
Qed.

(** The tokens of a slice of chronological lines are in the order of
    their end times. *)
Lemma slice_tokens_sorted (lines : list string) (tokens dat : list token)
      (a b : Z) :
  comprehension (parse_line false) lines = Ok tokens ->
  nondecreasing (map t tokens) = true ->
  comprehension (parse_line false) (PyList.slice lines a b) = Ok dat ->
  StronglySorted earlier dat.
Proof.
  intros Htok Hnd Hdat.
  apply nondecreasing_sorted, StronglySorted_map in Hnd.
  destruct (PyListFacts.slice_infix lines a b) as (pre & post & E & _).
  rewrite E in Htok. apply comprehension_Ok in Htok.
  apply Forall2_app_inv_l in Htok as (tpre & trest & _ & Htok & ->).
  apply Forall2_app_inv_l in Htok as (tdat & tpost & Htok & _ & ->).
  apply comprehension_Ok in Htok.
  assert (tdat = dat) as -> by congruence.
  apply StronglySorted_app_inv in Hnd as (_ & Hnd & _).
  now apply StronglySorted_app_inv in Hnd as (Hnd & _ & _).
Qed.

End Order.

(** ** The two lists on chronological lines *)

Section Chronological.
Context {F : Type} {HF : Float F} {HL : FloatLaws F}.

Lemma In_tl {A : Type} (x : A) (l : list A) : In x (tl l) -> In x l.
Proof.
  destruct l; simpl; auto.
Qed.

Lemma context_windows_nonneg (lines : list string) (tokens : list token)
      (p span : Z) (l r : list F) :
  comprehension (parse_line false) lines = Ok tokens ->
  nondecreasing (map t tokens) = true ->
  context_windows lines p span = Ok (l, r) ->
  Forall (fle fzero) l /\ Forall (fle fzero) r.
Proof.
  intros Htok Hnd Hok.
  apply context_windows_Ok in Hok as (d & Hl & -> & Hr). split.
  - apply left_window_Ok in Hl
      as [[_ ->] | (l_dat & init & last & Hdat & E & ->)]; [constructor|].
    pose proof (slice_tokens_sorted _ _ _ _ _ Htok Hnd Hdat) as Hs.
    rewrite E in Hs. apply StronglySorted_app_inv in Hs as (_ & _ & Hs).
    apply Forall_forall. intros x Hx.
    apply In_tl, walk_left_In in Hx as (tok & Hin & ->).
    apply fsub_nonneg.
    apply in_rev, In_tl in Hin. rewrite E in Hin.
    apply in_app_or in Hin as [Hin | [<- | []]].
    + apply Hs; [exact Hin | now left].
    + apply fle_refl.
  - apply right_window_Ok in Hr as (first & rest & Hdat & ->).
    apply (slice_tokens_read _ _ _ _ _ Htok) in Hdat.
    pose proof (slice_tokens_sorted _ _ _ _ _ Htok Hnd Hdat) as Hs.
    apply StronglySorted_inv in Hs as [_ Hs].
    apply Forall_forall. intros x Hx.
    apply walk_right_In in Hx as (tok & Hin & ->).
    apply fsub_nonneg. rewrite Forall_forall in Hs. now apply Hs.
Qed.

Lemma context_windows_sorted (lines : list string) (tokens : list token)
      (p span : Z) (l r : list F) :
  comprehension (parse_line false) lines = Ok tokens ->
  nondecreasing (map t tokens) = true ->
  context_windows lines p span = Ok (l, r) ->
  nondecreasing l = true /\ nondecreasing r = true.
Proof.
  intros Htok Hnd Hok.
  apply context_windows_Ok in Hok as (d & Hl & -> & Hr). split.
  - apply nondecreasing_sorted, StronglySorted_tl.
    apply left_window_Ok in Hl
      as [[_ ->] | (l_dat & init & last & Hdat & _ & ->)]; [constructor|].
    pose proof (slice_tokens_sorted _ _ _ _ _ Htok Hnd Hdat) as Hs.
    apply walk_left_sorted.
    apply (StronglySorted_rev earlier), StronglySorted_tl, Hs.
  - apply nondecreasing_sorted.
    apply right_window_Ok in Hr as (first & rest & Hdat & ->).
    apply (slice_tokens_read _ _ _ _ _ Htok) in Hdat.
    pose proof (slice_tokens_sorted _ _ _ _ _ Htok Hnd Hdat) as Hs.
    apply walk_right_sorted. now apply StronglySorted_inv in Hs as [Hs _].
Qed.

End Chronological.

(** ** Break labels next to the reference token *)

Section Neighbours.
Context {F : Type} {HF : Float F} {HL : FloatLaws F}.

Lemma break_at_inv (lines : list string) (i : Z) :
  break_at F lines i = true ->
  0 <= i /\
  exists s tok,
    nth_error lines (Z.to_nat i) = Some s /\
    parse_line false s = Ok tok /\ is_break (word tok) = true.
Proof.
  unfold break_at, label_at.
  destruct (Z.ltb_spec i 0); [discriminate|].
  destruct (nth_error lines (Z.to_nat i)) as [s|]; [|discriminate].
  destruct (parse_line false s) as [tok|] eqn:Es; [|discriminate].
  intros Hb. split; [assumption|]. now exists s, tok.
Qed.

(** A break label on the line before the reference token empties the
    left list. *)
Lemma context_windows_break_before (lines : list string) (p span : Z)
      (l r : list F) :
  0 < p <= Z.of_nat (List.length lines) ->
  break_at F lines (p - 1) = true ->
  context_windows lines p span = Ok (l, r) ->
  l = [].
Proof.
  intros Hp Hb Hok.
  apply break_at_inv in Hb as (_ & s & tok & Hs & Htok & Hb).
  apply context_windows_Ok in Hok as (d & Hl & -> & _).
  apply left_window_Ok in Hl
    as [[_ ->] | (l_dat & init & last & Hdat & -> & ->)]; [reflexivity|].
  assert (last = tok) as ->.
  { pose proof (comprehension_length _ _ _ Hdat) as Hlen.
    apply comprehension_Ok, Forall2_app_inv_r in Hdat
      as (s1 & s2 & H1 & H2 & E).
    inversion H2 as [|s' ? rest ? Hs' Hrest]; subst. inversion Hrest; subst.
    assert (Hnth : nth_error (s1 ++ [s']) (List.length s1) = Some s').
    { rewrite nth_error_app2 by lia. now rewrite Nat.sub_diag. }
    rewrite <- E in Hnth. apply PyListFacts.slice_nth_error in Hnth.
    rewrite PyListFacts.slice_length, length_app in Hlen.
    apply Forall2_length in H1. simpl List.length in Hlen.
    replace (Z.to_nat _ + List.length s1)%nat with (Z.to_nat (p - 1))
      in Hnth by (slice_cases; lia).
    congruence. }
  destruct init as [|tok0 init]; [reflexivity|].
  simpl tl. rewrite rev_app_distr. simpl. now rewrite Hb.
Qed.

(** A break label on the line after the reference token empties the
    right list. *)
Lemma context_windows_break_after (lines : list string) (p span : Z)
      (l r : list F) :
  0 <= p ->
  break_at F lines (p + 1) = true ->
  context_windows lines p span = Ok (l, r) ->
  r = [].
Proof.
  intros Hp Hb Hok.
  apply break_at_inv in Hb as (_ & s & tok & Hs & Htok & Hb).
  apply context_windows_Ok in Hok as (d & _ & _ & Hr).
  apply right_window_Ok in Hr as (first & rest & Hdat & ->).
  destruct rest as [|next rest]; [reflexivity|].
  assert (next = tok) as ->.
  { apply comprehension_Ok in Hdat.
    inversion Hdat as [|s0 ? l0 ? H0 Hrest E]; subst.
    inversion Hrest as [|s1 ? l1 ? H1 _ E1]; subst.
    assert (Hnth : nth_error (PyList.slice lines p
                      (Z.min (Z.of_nat (List.length lines)) (p + span + 1)))
                     1 = Some s1) by now rewrite <- E.
    apply PyListFacts.slice_nth_error in Hnth.
    assert (Hlt : (Z.to_nat (p + 1) < List.length lines)%nat)
      by (apply nth_error_Some; congruence).
    replace (Z.to_nat _ + 1)%nat with (Z.to_nat (p + 1)) in Hnth.
    - apply parse_line_strip in Htok. congruence.
    - unfold PyList.bound. destruct (Z.ltb_spec p 0); lia. }
  simpl. now rewrite Hb.
Qed.

End Neighbours.

(** ** The maximum of a list *)

Section Maximum.
Context {F : Type} {HF : Float F} {HL : FloatLaws F}.

Lemma py_max_is_max (x : F) (l : list F) : is_max (py_max x l) (x :: l).
Proof.
  revert x. induction l as [|y l IH]; intros x; simpl.
  - split; [now left|]. repeat constructor. apply fle_refl.
  - destruct (IH (if flt x y then y else x)) as [Hin Hall].
    apply Forall_cons_iff in Hall as [Hm Hall].
    split.
    + destruct Hin as [Hin | Hin]; [|now right; right].
      rewrite <- Hin. destruct (flt x y); [right|]; now left.
    + assert (Hx : fle x (if flt x y then y else x)).
      { destruct (flt x y) eqn:E; [exact (flt_asym x y E) | apply fle_refl]. }
      assert (Hy : fle y (if flt x y then y else x)).
      { destruct (flt x y) eqn:E; [apply fle_refl | exact E]. }
      repeat constructor; [| |exact Hall].
      * exact (fle_trans _ _ _ Hx Hm).
      * exact (fle_trans _ _ _ Hy Hm).
Qed.

End Maximum.

(** ** Lines and their fields *)

Module LineFacts.
Import PyStr.

Lemma split_no_blank (s : string) (m : nat) :
  has_blank s = false -> split s m = [s].
Proof.
  induction s as [|c s IH]; simpl; [reflexivity|].
  intros Hb. apply orb_false_iff in Hb as [Hc Hs].
  destruct m; [reflexivity|]. now rewrite Hc, (IH Hs).
Qed.

Lemma split_zero (s : string) : split s 0 = [s].
Proof.
  now destruct s.
Qed.

Lemma split_blank (a b : string) (m : nat) :
  has_blank a = false ->
  split (a ++ String " " b)%string (S m) = a :: split b m.
Proof.
  induction a as [|c a IH]; simpl; [reflexivity|].
  intros Hb. apply orb_false_iff in Hb as [Hc Ha].
  now rewrite Hc, (IH Ha).
Qed.

End LineFacts.

Section Lines.
Context {F : Type} {HF : Float F}.
Import LineFacts.

(** A line without a blank cannot be unpacked into [time] and [trans]. *)
Lemma parse_line_no_blank (b : bool) (s : string) :
  PyStr.has_blank (PyStr.strip s) = false -> parse_line b s = Raise ValueError.
Proof.
  intros Hs. unfold parse_line. now rewrite (split_no_blank _ 1 Hs).
Qed.

(** The first field is not a number. *)
Lemma parse_line_no_float (s time trans : string) :
  PyStr.strip s = (time ++ String " " trans)%string ->
  PyStr.has_blank time = false ->
  float_of time = None ->
  parse_line false s = Raise ValueError.
Proof.
  intros Es Ht Hf. unfold parse_line.
  rewrite Es, (split_blank _ _ 0 Ht), split_zero. now rewrite Hf.
Qed.

(** Nothing follows the second field's blank: [split(" ", 2)[1]] is out
    of range. *)
Lemma parse_line_no_label (s time trans : string) (x : F) :
  PyStr.strip s = (time ++ String " " trans)%string ->
  PyStr.has_blank time = false ->
  float_of time = Some x ->
  PyStr.has_blank trans = false ->
  parse_line false s = Raise IndexError.
Proof.
  intros Es Ht Hf Htr. unfold parse_line.
  rewrite Es, (split_blank _ _ 0 Ht), split_zero, Hf.
  now rewrite (split_no_blank trans 2 Htr).
Qed.

End Lines.

(** ** Exceptions of [get_context] *)

Lemma comprehension_first_Raise {A B : Type} (f : A -> result B)
      (l : list A) (i : nat) (x : A) (e : exn) :
  nth_error l i = Some x ->
  f x = Raise e ->
  (forall j y, (j < i)%nat -> nth_error l j = Some y -> exists b, f y = Ok b) ->
  comprehension f l = Raise e.
Proof.
  intros Hx He Hbefore.
  apply nth_error_split in Hx as (l1 & l2 & -> & <-).
  apply comprehension_Raise; [|exact He].
  apply Forall_forall. intros y Hy.
  apply In_nth_error in Hy as [j Hj].
  assert (Hlt : (j < List.length l1)%nat) by (apply nth_error_Some; congruence).
  apply (Hbefore j y Hlt). now rewrite nth_error_app1.
Qed.

Section Failures.
Context {F : Type} {HF : Float F} {HL : FloatLaws F}.

(** A reference position at or beyond the end: [r_dat] is empty and
    [r_dat[0]] raises. *)
Lemma context_windows_beyond (lines : list string) (p span : Z) :
  forallb (well_formed F) lines = true ->
  Z.of_nat (List.length lines) <= p ->
  context_windows lines p span = Raise IndexError.
Proof.
  intros Hwf Hp. unfold context_windows.
  destruct (left_window_total lines (Z.max 0 (p - span - 2)) p Hwf) as [d ->].
  cbn [bind]. unfold right_window.
  set (r_end := Z.min _ _).
  assert (E : PyList.slice lines p r_end = []).
  { apply length_zero_iff_nil. rewrite PyListFacts.slice_length.
    subst r_end. slice_cases; lia. }
  rewrite E. reflexivity.
Qed.

(** The first line of the two slices that the comprehensions reject
    decides the exception of [context_windows]. *)
Lemma context_windows_malformed (lines : list string) (p span i : Z)
      (s : string) (e : exn) :
  0 <= p < Z.of_nat (List.length lines) -> 0 <= span ->
  Z.max 0 (p - span - 2) <= i
    < Z.min (Z.of_nat (List.length lines)) (p + span + 1) ->
  nth_error lines (Z.to_nat i) = Some s ->
  read_at p i s = Raise e ->
  (forall j s', Z.max 0 (p - span - 2) <= j < i ->
                nth_error lines (Z.to_nat j) = Some s' ->
                exists tok, read_at p j s' = Ok tok) ->
  context_windows lines p span = Raise e.
Proof.
  intros Hp Hspan Hi Hs He Hbefore. unfold context_windows.
  set (a := Z.max 0 (p - span - 2)) in *.
  set (r_end := Z.min _ _) in *.
  assert (Ha : PyList.bound (Z.of_nat (List.length lines)) a = a)
    by (unfold PyList.bound; destruct (Z.ltb_spec a 0); lia).
  assert (Hb : PyList.bound (Z.of_nat (List.length lines)) p = p)
    by (unfold PyList.bound; destruct (Z.ltb_spec p 0); lia).
  assert (Hr : PyList.bound (Z.of_nat (List.length lines)) r_end = r_end)
    by (unfold PyList.bound; destruct (Z.ltb_spec r_end 0); lia).
  assert (Hleft_read : forall j s', a <= j < p -> j < i ->
            nth_error lines (Z.to_nat j) = Some s' ->
            exists tok, parse_line false s' = Ok tok).
  { intros j s' Hj Hji Hs'. destruct (Hbefore j s') as [tok Htok];
      [lia | exact Hs' |].
    exists tok. unfold read_at in Htok.
    now destruct (Z.leb_spec p j); [lia|]. }
  unfold read_at in He.
  destruct (Z.leb_spec p i) as [Hright | Hleft].
  - (* the line is in the right slice *)
    destruct (left_window_slice_total lines a p) as [d ->].
    { apply Forall_forall. intros y Hy.
      apply In_nth_error in Hy as [j Hj].
      assert (Hlt : (j < List.length (PyList.slice lines a p))%nat)
        by (apply nth_error_Some; congruence).
      rewrite PyListFacts.slice_length, Ha, Hb in Hlt.
      apply PyListFacts.slice_nth_error in Hj. rewrite Ha in Hj.
      destruct (Hleft_read (a + Z.of_nat j) y) as [tok Htok]; [lia | lia | |].
      - now replace (Z.to_nat (a + Z.of_nat j)) with (Z.to_nat a + j)%nat by lia.
      - unfold well_formed. now rewrite Htok. }
    cbn [bind]. unfold right_window.
    assert (Hnth : nth_error (PyList.slice lines p r_end) (Z.to_nat (i - p))
                   = Some s).
    { destruct (nth_error (PyList.slice lines p r_end) (Z.to_nat (i - p)))
        as [s'|] eqn:E.
      - apply PyListFacts.slice_nth_error in E. rewrite Hb in E.
        replace (Z.to_nat p + Z.to_nat (i - p))%nat with (Z.to_nat i)
          in E by lia.
        congruence.
      - apply nth_error_None in E.
        rewrite PyListFacts.slice_length, Hr, Hb in E. lia. }
    assert (Hc : comprehension (parse_line true) (PyList.slice lines p r_end)
                 = Raise e).
    { apply (comprehension_first_Raise _ _ _ _ _ Hnth He).
      intros j y Hj Hy. apply PyListFacts.slice_nth_error in Hy.
      rewrite Hb in Hy.
      destruct (Hbefore (p + Z.of_nat j) y) as [tok Htok]; [lia | |].
      - now replace (Z.to_nat (p + Z.of_nat j)) with (Z.to_nat p + j)%nat by lia.
      - exists tok. unfold read_at in Htok.
        now destruct (Z.leb_spec p (p + Z.of_nat j)); [|lia]. }
    now rewrite Hc.
  - (* the line is in the left slice *)
    assert (Hnth : nth_error (PyList.slice lines a p) (Z.to_nat (i - a))
                   = Some s).
    { destruct (nth_error (PyList.slice lines a p) (Z.to_nat (i - a)))
        as [s'|] eqn:E.
      - apply PyListFacts.slice_nth_error in E. rewrite Ha in E.
        replace (Z.to_nat a + Z.to_nat (i - a))%nat with (Z.to_nat i)
          in E by lia.
        congruence.
      - apply nth_error_None in E.
        rewrite PyListFacts.slice_length, Ha, Hb in E. lia. }
    assert (Hc : comprehension (parse_line false) (PyList.slice lines a p)
                 = Raise e).
    { apply (comprehension_first_Raise _ _ _ _ _ Hnth He).
      intros j y Hj Hy. apply PyListFacts.slice_nth_error in Hy.
      rewrite Ha in Hy.
      apply (Hleft_read (a + Z.of_nat j)); [lia | lia |].
      now replace (Z.to_nat (a + Z.of_nat j)) with (Z.to_nat a + j)%nat by lia. }
    unfold left_window.
    destruct (PyList.slice lines a p) as [|s0 l_win];
      [destruct (Z.to_nat (i - a)); discriminate|].
    now rewrite Hc.
Qed.

End Failures.

(** ** The header *)

Lemma get_context_header {F : Type} {HF : Float F} (lines : list string)
      (h : nat) (ref_pos span : Z) :
  PyList.index hash lines = Some h ->
  get_context lines ref_pos span
  = context_windows (skipn (S h) lines) (ref_pos - Z.of_nat h - 1) span.
Proof.
  intros Hh. unfold get_context, skip_header. now rewrite Hh.
Qed.

(** Without a header line [header_pos] is 0, and line 101 still takes
    [header_pos + 1] off the reference position. *)
Lemma get_context_no_header {F : Type} {HF : Float F} (lines : list string)
      (ref_pos span : Z) :
  PyList.index hash lines = None ->
  PyList.index hash_nl lines = None ->
  get_context lines ref_pos span = context_windows lines (ref_pos - 1) span.
Proof.
  intros Hh Hn. unfold get_context, skip_header. rewrite Hh, Hn.
  now replace (ref_pos - 0 - 1) with (ref_pos - 1) by lia.
Qed.

(** ** The properties of the specification *)

Section Claims.
Context {F : Type} {HF : Float F} {HL : FloatLaws F}.

(** C1. [get_speechrate] returns the sum of the two maxima over the sum
    of the two counts when both lists have elements, the maximum over
    the count of the one list that has elements when the other is empty,
    and [None], without raising, when both are empty. *)
Theorem get_speechrate_max_over_count (l_dist r_dist : list F) :
  match l_dist, r_dist with
  | [], [] => get_speechrate l_dist r_dist = Ok None
  | [], _ :: _ =>
      exists mr,
        is_max mr r_dist /\
        get_speechrate l_dist r_dist
        = Ok (Some (fdiv mr (List.length r_dist)))
  | _ :: _, [] =>
      exists ml,
        is_max ml l_dist /\
        get_speechrate l_dist r_dist
        = Ok (Some (fdiv ml (List.length l_dist)))
  | _ :: _, _ :: _ =>
      exists ml mr,
        is_max ml l_dist /\ is_max mr r_dist /\
        get_speechrate l_dist r_dist
        = Ok (Some (fdiv (fadd ml mr)
                      (List.length l_dist + List.length r_dist)))
  end.
Proof.
  destruct l_dist as [|x l], r_dist as [|y r].
  - reflexivity.
  - exists (py_max y r). split; [apply py_max_is_max | reflexivity].
  - exists (py_max x l). split; [apply py_max_is_max | reflexivity].
  - exists (py_max x l), (py_max y r).
    repeat split; try apply py_max_is_max.
Qed.

(** X16. On a valid input, with the reference token at the rebased
    position, a break label on the line just before the reference token
    makes the left list empty, and a break label on the line just after
    it makes the right list empty. *)
Theorem break_neighbour_empties_list (lines : list string)
        (ref_pos span : Z) :
  valid_input F lines ref_pos span ->
  exists l r,
    get_context lines ref_pos span = Ok (l, r) /\
    (break_at F (body lines) (rebased lines ref_pos - 1) = true -> l = []) /\
    (break_at F (body lines) (rebased lines ref_pos + 1) = true -> r = []).
Proof.
  intros Hv. destruct (get_context_total _ _ _ Hv) as (l & r & Hok).
  exists l, r. split; [exact Hok|].
  rewrite get_context_unfold in Hok. destruct Hv as (_ & Hp & _).
  split; intros Hb.
  - apply break_at_inv in Hb as Hb'. destruct Hb' as [Hpos _].
    eapply context_windows_break_before; [| exact Hb | exact Hok]. lia.
  - eapply context_windows_break_after; [| exact Hb | exact Hok]. lia.
Qed.

(** C5. On a valid input neither list is longer than [span]. *)
Theorem window_lengths_within_span (lines : list string)
        (ref_pos span : Z) :
  valid_input F lines ref_pos span ->
  exists l r,
    get_context lines ref_pos span = Ok (l, r) /\
    Z.of_nat (List.length l) <= span /\ Z.of_nat (List.length r) <= span.
Proof.
  intros Hv. destruct (get_context_total _ _ _ Hv) as (l & r & Hok).
  exists l, r. split; [exact Hok|].
  rewrite get_context_unfold in Hok. destruct Hv as (_ & Hp & Hspan).
  eapply context_windows_length; [| exact Hspan | exact Hok]. lia.
Qed.

(** C6. On a valid input whose end times never go down, every distance
    in the two lists is at least zero. *)
Theorem distances_nonnegative (lines : list string) (ref_pos span : Z) :
  valid_input F lines ref_pos span ->
  chronological F lines ->
  exists l r,
    get_context lines ref_pos span = Ok (l, r) /\
    Forall (fle fzero) l /\ Forall (fle fzero) r.
Proof.
  intros Hv (tokens & Htok & Hnd).
  destruct (get_context_total _ _ _ Hv) as (l & r & Hok).
  exists l, r. split; [exact Hok|].
  rewrite get_context_unfold in Hok.
  exact (context_windows_nonneg _ _ _ _ _ _ Htok Hnd Hok).
Qed.

(** X17. On a valid input, the left list is empty when the rebased
    reference position is that of the first line after the header, and
    the right list is empty when it is that of the last line. *)
Theorem reference_at_either_end (lines : list string) (ref_pos span : Z) :
  valid_input F lines ref_pos span ->
  exists l r,
    get_context lines ref_pos span = Ok (l, r) /\
    (rebased lines ref_pos = 0 -> l = []) /\
    (rebased lines ref_pos = Z.of_nat (List.length (body lines)) - 1 ->
     r = []).
Proof.
  intros Hv. destruct (get_context_total _ _ _ Hv) as (l & r & Hok).
  exists l, r. split; [exact Hok|].
  rewrite get_context_unfold in Hok.
  split; intros Hp; rewrite Hp in Hok.
  - exact (context_windows_first _ _ _ _ Hok).
  - exact (context_windows_last _ _ _ _ Hok).
Qed.

(** C9, as the program has it. On a valid input whose end times never go
    down, both lists start with the token nearest to the reference token:
    the distances of the left list and of the right list never go
    down. *)
Theorem both_lists_nearest_first (lines : list string) (ref_pos span : Z) :
  valid_input F lines ref_pos span ->
  chronological F lines ->
  exists l r,
    get_context lines ref_pos span = Ok (l, r) /\
    nondecreasing l = true /\ nondecreasing r = true.
Proof.
  intros Hv (tokens & Htok & Hnd).
  destruct (get_context_total _ _ _ Hv) as (l & r & Hok).
  exists l, r. split; [exact Hok|].
  rewrite get_context_unfold in Hok.
  exact (context_windows_sorted _ _ _ _ _ _ Htok Hnd Hok).
Qed.

(** X18. On a valid input, the rebased reference position inside the
    lines after the header, with span 0 both lists are empty, and
    [get_speechrate] of the two lists is [None]. *)
Theorem span_zero_gives_none (lines : list string) (ref_pos : Z) :
  valid_input F lines ref_pos 0 ->
  get_context lines ref_pos 0 = Ok ([], []) /\
  (w <- get_context lines ref_pos 0 ;; get_speechrate (fst w) (snd w))
  = Ok None.
Proof.
  intros Hv. destruct (get_context_total _ _ _ Hv) as (l & r & Hok).
  assert (Hlen : Z.of_nat (List.length l) <= 0 /\
                 Z.of_nat (List.length r) <= 0).
  { rewrite get_context_unfold in Hok. destruct Hv as (_ & Hp & _).
    eapply context_windows_length; [| | exact Hok]; lia. }
  destruct l; [|simpl in Hlen; lia]. destruct r; [|simpl in Hlen; lia].
  rewrite Hok. now split.
Qed.

End Claims.

(** ** The properties on the sample recordings *)

Local Open Scope Q_scope.

(** Closes a goal [valid_input Q lines ref_pos span] on given lines. *)
Ltac valid_by_computation :=
  unfold valid_input; repeat split; vm_compute; congruence.

(** Closes a goal [chronological Q lines] on given lines. *)
Ltac chronological_by_computation :=
  eexists; split; vm_compute; reflexivity.

Lemma get_speechrate_max_over_count_witness :
  exists ml mr,
    is_max ml [1; 3] /\ is_max mr [2; 5] /\
    get_speechrate [1; 3] [2; 5] = Ok (Some (fdiv (fadd ml mr) 4)).
Proof.
  exact (@get_speechrate_max_over_count Q Q_Float Q_FloatLaws [1; 3] [2; 5]).
Defined.

(** C2. The header at position 2 and [ref_pos = 4] give the windows of
    position 1 of the five annotation lines; the call on the five lines
    alone with [ref_pos = 1] gives the windows of position 0, because line
    101 takes 1 off the reference position also when there is no header.
    The two calls return different lists. *)
Theorem header_rebase_differs_from_direct_call :
  get_context (F:=Q) with_header 4 5 = context_windows three_field_lines 1 5 /\
  get_context (F:=Q) three_field_lines 1 5
  = context_windows three_field_lines 0 5 /\
  get_context (F:=Q) with_header 4 5 = Ok ([], [2 # 5; 4 # 5]) /\
  get_context (F:=Q) three_field_lines 1 5 = Ok ([], [2 # 5; 4 # 5; 6 # 5]) /\
  get_context (F:=Q) with_header 4 5 <> get_context three_field_lines 1 5.
Proof.
  repeat split; try (vm_compute; reflexivity).
  vm_compute. discriminate.
Qed.

(** C3 fails on the lines of the specification: with only a time and a
    label on a line, the label has no field [1] and the call raises. *)
Lemma two_field_scenario_raises :
  get_context (F:=Q) two_field_lines 3 5 = Raise IndexError /\
  get_context (F:=Q) two_field_lines 3 5 <> Ok ([4 # 5], []).
Proof.
  split; vm_compute; [reflexivity | discriminate].
Qed.

(** C3, as the program has it. With the lines in the form it reads, "sat"
    as the reference token (position 3 after the header, [ref_pos = 6]
    with the header) and span 5, the left list is [0.90 - 0.50]: the time
    0.90 of "cat" is the start time, the distance 0 of "cat" is dropped,
    and the [<SIL>] at position 0 is the first candidate, which the loop
    leaves out.  The [<SIL>] after "sat" ends the right loop at once, and
    the rate is 0.40 / 1. *)
Theorem sat_scenario :
  get_context (F:=Q) with_header 6 5 = context_windows three_field_lines 3 5 /\
  get_context (F:=Q) with_header 6 5 = Ok ([2 # 5], []) /\
  (w <- get_context (F:=Q) with_header 6 5 ;; get_speechrate (fst w) (snd w))
  = Ok (Some (2 # 5)).
Proof.
  repeat split; vm_compute; reflexivity.
Qed.

Lemma break_neighbour_empties_list_witness :
  valid_input Q pauses 4 3 /\
  break_at Q (body pauses) (rebased pauses 4 - 1) = true /\
  break_at Q (body pauses) (rebased pauses 4 + 1) = true /\
  get_context (F:=Q) pauses 4 3 = Ok ([], []).
Proof.
  assert (Hv : valid_input Q pauses 4 3) by valid_by_computation.
  assert (Hb : break_at Q (body pauses) (rebased pauses 4 - 1) = true)
    by (vm_compute; reflexivity).
  assert (Ha : break_at Q (body pauses) (rebased pauses 4 + 1) = true)
    by (vm_compute; reflexivity).
  destruct (@break_neighbour_empties_list Q Q_Float Q_FloatLaws
              pauses 4 3 Hv) as (l & r & Hok & Hl & Hr).
  rewrite (Hl Hb), (Hr Ha) in Hok. auto.
Defined.

Lemma window_lengths_within_span_witness :
  valid_input Q recording 5 2 /\
  exists l r,
    get_context recording 5 2 = Ok (l, r) /\
    (Z.of_nat (List.length l) <= 2)%Z /\ (Z.of_nat (List.length r) <= 2)%Z.
Proof.
  assert (Hv : valid_input Q recording 5 2) by valid_by_computation.
  split; [exact Hv|].
  exact (@window_lengths_within_span Q Q_Float Q_FloatLaws recording 5 2 Hv).
Defined.

Lemma distances_nonnegative_witness :
  valid_input Q recording 3 5 /\ chronological Q recording /\
  exists l r,
    get_context recording 3 5 = Ok (l, r) /\
    Forall (fle fzero) l /\ Forall (fle fzero) r.
Proof.
  assert (Hv : valid_input Q recording 3 5) by valid_by_computation.
  assert (Hc : chronological Q recording) by chronological_by_computation.
  split; [exact Hv | split; [exact Hc|]].
  exact (@distances_nonnegative Q Q_Float Q_FloatLaws recording 3 5 Hv Hc).
Defined.

Lemma reference_at_either_end_witness :
  valid_input Q (hash :: headerless) 1 9 /\
  rebased (hash :: headerless) 1 = 0%Z /\
  (exists r, get_context (F:=Q) (hash :: headerless) 1 9 = Ok ([], r)) /\
  valid_input Q (hash :: headerless) 6 1 /\
  rebased (hash :: headerless) 6
  = (Z.of_nat (List.length (body (hash :: headerless))) - 1)%Z /\
  (exists l, get_context (F:=Q) (hash :: headerless) 6 1 = Ok (l, [])).
Proof.
  assert (Hv : valid_input Q (hash :: headerless) 1 9) by valid_by_computation.
  assert (Hw : valid_input Q (hash :: headerless) 6 1) by valid_by_computation.
  destruct (@reference_at_either_end Q Q_Float Q_FloatLaws
              (hash :: headerless) 1 9 Hv) as (l & r & Hok & Hl & _).
  destruct (@reference_at_either_end Q Q_Float Q_FloatLaws
              (hash :: headerless) 6 1 Hw) as (l' & r' & Hok' & _ & Hr').
  rewrite (Hl eq_refl) in Hok. rewrite (Hr' eq_refl) in Hok'.
  split; [exact Hv|]. split; [reflexivity|]. split; [now exists r|].
  split; [exact Hw|]. split; [reflexivity|]. now exists l'.
Defined.

(** C8 fails on the program.  The line "junk" lies outside the two slices
    of position 5 with span 1 and nothing is raised; a line without a
    second field raises [IndexError], the exception of a position out of
    range, and a line without a number raises [ValueError]; [ref_pos = 0]
    points at the header line, before the first token, and with a span of
    9 the call returns. *)
Lemma malformed_line_not_reported :
  get_context (F:=Q) damaged 6 1 = Ok ([1 # 2], []) /\
  get_context (F:=Q) [hash; "0.5 the"] 1 0 = Raise IndexError /\
  get_context (F:=Q) [hash; "x 122 the"] 1 0 = Raise ValueError /\
  rebased recording 0 = (-1)%Z /\
  get_context (F:=Q) recording 0 9 = Ok ([1; 3 # 2; 2], []).
Proof.
  repeat split; vm_compute; reflexivity.
Qed.

(** C9 fails on the program: the left list of the sample recording starts
    with the distance of "sat", the nearer token, and goes up. *)
Lemma left_list_goes_up :
  valid_input Q recording 5 5 /\ chronological Q recording /\
  get_context (F:=Q) recording 5 5 = Ok ([1 # 2; 1], []) /\
  nonincreasing [1 # 2; 1] = false.
Proof.
  split; [valid_by_computation|].
  split; [chronological_by_computation|].
  split; vm_compute; reflexivity.
Qed.

Lemma both_lists_nearest_first_witness :
  valid_input Q recording 3 5 /\ chronological Q recording /\
  exists l r,
    get_context recording 3 5 = Ok (l, r) /\
    nondecreasing l = true /\ nondecreasing r = true.
Proof.
  assert (Hv : valid_input Q recording 3 5) by valid_by_computation.
  assert (Hc : chronological Q recording) by chronological_by_computation.
  split; [exact Hv | split; [exact Hc|]].
  exact (@both_lists_nearest_first Q Q_Float Q_FloatLaws recording 3 5 Hv Hc).
Defined.

Lemma span_zero_gives_none_witness :
  valid_input Q recording 3 0 /\
  get_context (F:=Q) recording 3 0 = Ok ([], []) /\
  (w <- get_context (F:=Q) recording 3 0 ;; get_speechrate (fst w) (snd w))
  = Ok None.
Proof.
  assert (Hv : valid_input Q recording 3 0) by valid_by_computation.
  split; [exact Hv|].
  exact (@span_zero_gives_none Q Q_Float Q_FloatLaws recording 3 Hv).
Defined.

(** ** The windows in terms of tokens *)

Local Close Scope Q_scope.

Module SplitFacts.
Import PyList.

Section Split.
Context {A : Type}.
Implicit Types (l before rest : list A).

(** The slice that ends where [rest] begins. *)
Lemma slice_before before rest (a : Z) :
  0 <= a ->
  slice (before ++ rest) a (Z.of_nat (List.length before))
  = skipn (Z.to_nat a) before.
Proof.
  intros Ha. unfold slice. rewrite length_app.
  set (n := Z.of_nat (List.length before + List.length rest)).
  assert (Hb : bound n (Z.of_nat (List.length before))
               = Z.of_nat (List.length before))
    by (unfold bound; subst n; destruct (Z.ltb_spec (Z.of_nat (List.length before)) 0); lia).
  assert (Hn : bound n a = Z.min a n)
    by (unfold bound; destruct (Z.ltb_spec a 0); lia).
  rewrite Hb, Hn.
  destruct (Z.le_gt_cases a (Z.of_nat (List.length before))) as [Hle | Hgt].
  - replace (Z.to_nat (Z.min a n)) with (Z.to_nat a) by (subst n; lia).
    rewrite skipn_app.
    replace (Z.to_nat a - List.length before)%nat with 0%nat by lia.
    rewrite firstn_app, length_skipn. simpl skipn.
    replace (Z.to_nat (Z.of_nat (List.length before) - Z.min a n))
      with (List.length before - Z.to_nat a)%nat by (subst n; lia).
    rewrite Nat.sub_diag. simpl firstn. rewrite app_nil_r.
    rewrite <- (length_skipn (Z.to_nat a) before). apply firstn_all.
  - replace (Z.to_nat (Z.of_nat (List.length before) - Z.min a n))
      with 0%nat by (subst n; lia).
    simpl firstn. symmetry. apply skipn_all2. lia.
Qed.

(** The slice that begins where [rest] begins. *)
Lemma slice_after before rest (e : Z) :
  0 <= e ->
  slice (before ++ rest) (Z.of_nat (List.length before)) e
  = firstn (Z.to_nat (e - Z.of_nat (List.length before))) rest.
Proof.
  intros He. unfold slice. rewrite length_app.
  set (n := Z.of_nat (List.length before + List.length rest)).
  assert (Hb : bound n (Z.of_nat (List.length before))
               = Z.of_nat (List.length before))
    by (unfold bound; subst n; destruct (Z.ltb_spec (Z.of_nat (List.length before)) 0); lia).
  assert (Hn : bound n e = Z.min e n)
    by (unfold bound; destruct (Z.ltb_spec e 0); lia).
  rewrite Hb, Hn, Nat2Z.id, skipn_app, skipn_all, Nat.sub_diag.
  simpl.
  destruct (Z.le_gt_cases e n) as [Hle | Hgt].
  - now replace (Z.min e n) with e by lia.
  - rewrite !firstn_all2; [reflexivity | subst n; lia | subst n; lia].
Qed.

End Split.

End SplitFacts.

Section ComprehensionParts.
Context {A B : Type} (f : A -> result B).

Lemma comprehension_skipn (l : list A) (bs : list B) (k : nat) :
  comprehension f l = Ok bs ->
  comprehension f (skipn k l) = Ok (skipn k bs).
Proof.
  revert l bs. induction k as [|k IH]; intros l bs Hl; [exact Hl|].
  destruct l as [|a l].
  - simpl in Hl. now injection Hl as <-.
  - apply comprehension_Ok in Hl.
    inversion Hl as [|? b ? bs' Hb Hrest]; subst.
    simpl. apply IH. now apply comprehension_Ok.
Qed.

Lemma comprehension_firstn (l : list A) (bs : list B) (k : nat) :
  comprehension f l = Ok bs ->
  comprehension f (firstn k l) = Ok (firstn k bs).
Proof.
  revert l bs. induction k as [|k IH]; intros l bs Hl; [reflexivity|].
  destruct l as [|a l].
  - simpl in Hl. now injection Hl as <-.
  - apply comprehension_Ok in Hl.
    inversion Hl as [|? b ? bs' Hb Hrest]; subst.
    simpl. rewrite Hb. cbn [bind].
    now rewrite (IH l bs') by now apply comprehension_Ok.
Qed.

(** The results of a comprehension over two lists in a row. *)
Lemma comprehension_app_inv (l : list A) (b1 b2 : list B) :
  comprehension f l = Ok (b1 ++ b2) ->
  exists l1 l2,
    l = l1 ++ l2 /\ List.length l1 = List.length b1 /\
    comprehension f l1 = Ok b1 /\ comprehension f l2 = Ok b2.
Proof.
  intros Hl. apply comprehension_Ok, Forall2_app_inv_r in Hl
    as (l1 & l2 & H1 & H2 & ->).
  exists l1, l2. repeat split.
  - exact (Forall2_length H1).
  - now apply comprehension_Ok.
  - now apply comprehension_Ok.
Qed.

End ComprehensionParts.

Lemma tl_skipn {A : Type} (k : nat) (l : list A) :
  tl (skipn k l) = skipn k (tl l).
Proof.
  revert l. induction k as [|k IH]; intros l; [reflexivity|].
  destruct l as [|x l]; [reflexivity|].
  simpl. rewrite IH. destruct l as [|y l]; [now destruct k | reflexivity].
Qed.

Lemma firstn_min_length {A : Type} (k : nat) (l : list A) :
  firstn (Nat.min (List.length l) k) l = firstn k l.
Proof.
  destruct (Nat.le_gt_cases k (List.length l)) as [Hle | Hgt].
  - now rewrite Nat.min_r.
  - rewrite Nat.min_l by lia. now rewrite firstn_all, firstn_all2 by lia.
Qed.

Section OnTokens.
Context {F : Type} {HF : Float F} {HL : FloatLaws F}.

(** The left loop of [get_context] sees the tokens before the reference
    token from the nearest one on, at most [span + 1] of them and never
    the first token of the recording. *)
Lemma left_window_on_tokens (l_lines rest : list string)
      (before : list token) (span : Z) :
  comprehension (parse_line false) l_lines = Ok before ->
  0 <= span ->
  left_window (l_lines ++ rest)
    (Z.max 0 (Z.of_nat (List.length l_lines) - span - 2))
    (Z.of_nat (List.length l_lines))
  = Ok (match rev before with
        | [] => []
        | pred :: _ =>
            walk_left (t pred) (firstn (S (Z.to_nat span)) (rev (tl before)))
        end).
Proof.
  intros Hb Hspan. unfold left_window.
  rewrite SplitFacts.slice_before by lia.
  set (a := Z.to_nat (Z.max 0 (Z.of_nat (List.length l_lines) - span - 2))).
  pose proof (comprehension_length _ _ _ Hb) as Hlen.
  pose proof (comprehension_skipn _ _ _ a Hb) as Hskip.
  destruct (skipn a l_lines) as [|s l_win] eqn:E.
  - apply (f_equal (@List.length _)) in E. rewrite length_skipn in E.
    simpl in E. assert (List.length l_lines = 0%nat) by (subst a; lia).
    destruct before; [reflexivity | simpl in Hlen; lia].
  - rewrite Hskip. cbn [bind].
    assert (Ha : (a < List.length before)%nat).
    { apply (f_equal (@List.length _)) in E. rewrite length_skipn in E.
      simpl in E. lia. }
    destruct (rev before) as [|pred e] eqn:Er.
    { apply (f_equal (@List.length _)) in Er. rewrite length_rev in Er.
      simpl in Er. lia. }
    assert (Hbefore : before = rev e ++ [pred])
      by now rewrite <- (rev_involutive before), Er.
    assert (Hlast : PyList.last_item (skipn a before) = Ok pred).
    { apply PyListFacts.last_item_Ok. exists (skipn a (rev e)).
      rewrite Hbefore, skipn_app.
      rewrite Hbefore, length_app in Ha. simpl in Ha.
      now replace (a - List.length (rev e))%nat with 0%nat by lia. }
    rewrite Hlast. cbn [bind]. do 2 f_equal.
    rewrite tl_skipn, firstn_rev. do 2 f_equal.
    rewrite length_tl. subst a. lia.
Qed.

(** The right loop sees the tokens after the reference token, at most
    [span] of them. *)
Lemma right_window_on_tokens (l_lines r_lines : list string)
      (ref : token) (after : list token) (span : Z) :
  comprehension (parse_line false) r_lines = Ok (ref :: after) ->
  0 <= span ->
  right_window (l_lines ++ r_lines) (Z.of_nat (List.length l_lines))
    (Z.min (Z.of_nat (List.length (l_lines ++ r_lines)))
       (Z.of_nat (List.length l_lines) + span + 1))
  = Ok (walk_right (t ref) (firstn (Z.to_nat span) after)).
Proof.
  intros Hr Hspan. unfold right_window.
  rewrite SplitFacts.slice_after by lia.
  pose proof (comprehension_length _ _ _ Hr) as Hlen.
  destruct r_lines as [|r a_lines]; [discriminate|].
  rewrite length_app. simpl List.length in *.
  replace (Z.to_nat _)
    with (S (Nat.min (List.length after) (Z.to_nat span))) by lia.
  rewrite (comprehension_strip _ _ (comprehension_firstn _ _ _ _ Hr)). cbn.
  now rewrite firstn_min_length.
Qed.

(** [context_windows] on lines that all parse: the two lists are those of
    the tokens. *)
Lemma context_windows_on_tokens (lines : list string)
      (before : list token) (ref : token) (after : list token) (span : Z) :
  comprehension (parse_line false) lines = Ok (before ++ ref :: after) ->
  0 <= span ->
  context_windows lines (Z.of_nat (List.length before)) span
  = Ok (windows_of_tokens before ref after (Z.to_nat span)).
Proof.
  intros Hl Hspan.
  apply comprehension_app_inv in Hl as (l_lines & r_lines & -> & Hlen & Hb & Hr).
  unfold context_windows. rewrite <- Hlen.
  rewrite (left_window_on_tokens _ _ _ _ Hb Hspan). cbn [bind].
  rewrite (right_window_on_tokens _ _ _ _ _ Hr Hspan). cbn [bind].
  unfold windows_of_tokens. now destruct (rev before).
Qed.

End OnTokens.

(** ** The header line *)

Module HeaderFacts.
Import PyList.

Lemma index_app_found (x : string) (hdr rest : list string) :
  index x hdr = None ->
  index x (hdr ++ x :: rest) = Some (List.length hdr).
Proof.
  induction hdr as [|y hdr IH]; simpl.
  - intros _. now rewrite String.eqb_refl.
  - destruct (String.eqb y x); [discriminate|].
    destruct (index x hdr); [discriminate|].
    intros _. now rewrite IH.
Qed.

Lemma index_app_None (x : string) (l1 l2 : list string) :
  index x (l1 ++ l2) = None <-> index x l1 = None /\ index x l2 = None.
Proof.
  assert (Hn : forall o : option nat, option_map S o = None <-> o = None)
    by (intros [n|]; simpl; split; congruence).
  induction l1 as [|y l1 IH]; simpl.
  - tauto.
  - destruct (String.eqb y x).
    + split; [discriminate | intros [? _]; discriminate].
    + rewrite !Hn. exact IH.
Qed.

Lemma skip_header_hash (hdr rest : list string) :
  index hash hdr = None ->
  skip_header (hdr ++ hash :: rest) = (rest, Z.of_nat (List.length hdr)).
Proof.
  intros Hh. unfold skip_header. rewrite (index_app_found _ _ _ Hh).
  f_equal. change (S (List.length hdr)) with (1 + List.length hdr)%nat.
  rewrite <- skipn_skipn, skipn_app, skipn_all, Nat.sub_diag. reflexivity.
Qed.

Lemma skip_header_hash_nl (hdr rest : list string) :
  index hash hdr = None -> index hash rest = None ->
  index hash_nl hdr = None ->
  skip_header (hdr ++ hash_nl :: rest) = (rest, Z.of_nat (List.length hdr)).
Proof.
  intros Hh Hr Hn. unfold skip_header.
  assert (E : index hash (hdr ++ hash_nl :: rest) = None).
  { apply index_app_None. split; [exact Hh|]. simpl. now rewrite Hr. }
  rewrite E, (index_app_found _ _ _ Hn).
  f_equal. change (S (List.length hdr)) with (1 + List.length hdr)%nat.
  rewrite <- skipn_skipn, skipn_app, skipn_all, Nat.sub_diag. reflexivity.
Qed.

Lemma slice_nil {A : Type} (a b : Z) : slice (@nil A) a b = [].
Proof.
  unfold slice. simpl. now rewrite skipn_nil, firstn_nil.
Qed.

Lemma slice_map {A B : Type} (f : A -> B) (l : list A) (a b : Z) :
  slice (map f l) a b = map f (slice l a b).
Proof.
  unfold slice. now rewrite length_map, skipn_map, firstn_map.
Qed.

End HeaderFacts.

(** ** Break labels *)

Module LabelFacts.
Import PyStr.

Lemma prefix_app (p w s : string) :
  String.prefix p w = true -> String.prefix p (w ++ s)%string = true.
Proof.
  revert w. induction p as [|a p IH]; intros w;
    [intros _; now destruct (w ++ s)%string|].
  destruct w as [|b w]; simpl; [discriminate|].
  destruct (ascii_dec a b); [apply IH | discriminate].
Qed.

Lemma upper_app (w s : string) :
  upper (w ++ s)%string = (upper w ++ upper s)%string.
Proof.
  induction w as [|c w IH]; simpl; [reflexivity | now rewrite IH].
Qed.

Lemma upper_char_idem (c : ascii) : upper_char (upper_char c) = upper_char c.
Proof.
  destruct c as [[] [] [] [] [] [] [] []]; reflexivity.
Qed.

Lemma upper_idem (w : string) : upper (upper w) = upper w.
Proof.
  induction w as [|c w IH]; simpl; [reflexivity|].
  now rewrite upper_char_idem, IH.
Qed.

Lemma startswith_app (w s : string) (prefixes : list string) :
  startswith w prefixes = true -> startswith (w ++ s)%string prefixes = true.
Proof.
  unfold startswith. rewrite !existsb_exists.
  intros (p & Hin & Hp). exists p. split; [exact Hin | now apply prefix_app].
Qed.

End LabelFacts.

(** ** The loops on longer lists *)

Section Walks.
Context {F : Type} {HF : Float F}.

Lemma walk_left_app (s : F) (toks more : list token) :
  exists rest, walk_left s (toks ++ more) = walk_left s toks ++ rest.
Proof.
  induction toks as [|tok toks [rest IH]]; simpl.
  - now exists (walk_left s more).
  - destruct (is_break (word tok)).
    + now exists [].
    + exists rest. now rewrite IH.
Qed.

Lemma walk_right_app (e : F) (toks more : list token) :
  exists rest, walk_right e (toks ++ more) = walk_right e toks ++ rest.
Proof.
  induction toks as [|tok toks [rest IH]]; simpl.
  - now exists (walk_right e more).
  - destruct (is_break (word tok)).
    + now exists [].
    + exists rest. now rewrite IH.
Qed.

(** Without a break label before the last token the left loop runs over
    all the tokens. *)
Lemma walk_left_all (s : F) (toks : list token) :
  Forall (fun tok => is_break (word tok) = false) (removelast toks) ->
  walk_left s toks = map (fun tok => fsub s (t tok)) toks.
Proof.
  induction toks as [|tok toks IH]; [reflexivity|].
  destruct toks as [|tok' toks].
  - intros _. simpl. now destruct (is_break (word tok)).
  - intros Hall. change (removelast (tok :: tok' :: toks))
      with (tok :: removelast (tok' :: toks)) in Hall.
    apply Forall_cons_iff in Hall as [Htok Hall].
    change (walk_left s (tok :: tok' :: toks))
      with (fsub s (t tok)
              :: (if is_break (word tok) then []
                  else walk_left s (tok' :: toks))).
    now rewrite Htok, (IH Hall).
Qed.

(** Without a break label the right loop runs over all the tokens. *)
Lemma walk_right_all (e : F) (toks : list token) :
  Forall (fun tok => is_break (word tok) = false) toks ->
  walk_right e toks = map (fun tok => fsub (t tok) e) toks.
Proof.
  induction 1 as [|tok toks Htok _ IH]; simpl; [reflexivity|].
  now rewrite Htok, IH.
Qed.

End Walks.

Lemma firstn_prefix {A : Type} (k k' : nat) (l : list A) :
  (k <= k')%nat -> exists rest, firstn k' l = firstn k l ++ rest.
Proof.
  intros Hk. exists (skipn k (firstn k' l)).
  rewrite <- (firstn_skipn k (firstn k' l)) at 1.
  now rewrite firstn_firstn, Nat.min_l.
Qed.

Lemma tl_prefix {A : Type} (l rest : list A) :
  exists rest', tl (l ++ rest) = tl l ++ rest'.
Proof.
  destruct l as [|x l]; simpl; [now exists (tl rest) | now exists rest].
Qed.

(** ** Lines with white space around them, and lines in the corpus form *)

Section LineForms.
Context {F : Type} {HF : Float F}.

Lemma parse_line_stripped (b : bool) (s : string) :
  parse_line b (PyStr.strip s) = parse_line b s.
Proof.
  unfold parse_line. now rewrite PyStrFacts.strip_idem.
Qed.

Lemma comprehension_stripped (b : bool) (l : list string) :
  comprehension (parse_line b) (map PyStr.strip l)
  = comprehension (parse_line b) l.
Proof.
  induction l as [|s l IH]; simpl; [reflexivity|].
  now rewrite parse_line_stripped, IH.
Qed.

Lemma left_window_stripped (lines : list string) (a p : Z) :
  left_window (map PyStr.strip lines) a p = left_window lines a p.
Proof.
  unfold left_window. rewrite HeaderFacts.slice_map.
  destruct (PyList.slice lines a p) as [|s l_win]; [reflexivity|].
  rewrite <- (comprehension_stripped false (s :: l_win)). reflexivity.
Qed.

Lemma right_window_stripped (lines : list string) (p e : Z) :
  right_window (map PyStr.strip lines) p e = right_window lines p e.
Proof.
  unfold right_window.
  now rewrite HeaderFacts.slice_map, comprehension_stripped.
Qed.

(** A line in the form [time field label], with or without more text
    after a further blank, gives the token of [time] and [label]. *)
Lemma parse_line_fields (s time field label rest : string) (x : F) :
  PyStr.strip s
  = (time ++ String " " (field ++ String " " (label ++ rest)))%string ->
  PyStr.has_blank time = false ->
  PyStr.has_blank field = false ->
  PyStr.has_blank label = false ->
  rest = EmptyString \/ (exists more, rest = String " " more) ->
  float_of time = Some x ->
  parse_line false s = Ok (Token x label).
Proof.
  intros Es Ht Hf Hl Hrest Hx. unfold parse_line.
  rewrite Es, (LineFacts.split_blank _ _ 0 Ht), LineFacts.split_zero, Hx.
  rewrite (LineFacts.split_blank _ _ 1 Hf).
  destruct Hrest as [-> | [more ->]].
  - assert (E : (label ++ EmptyString)%string = label)
      by (clear; induction label as [|c l IH]; simpl; congruence).
    now rewrite E, (LineFacts.split_no_blank _ 1 Hl).
  - now rewrite (LineFacts.split_blank _ _ 0 Hl), LineFacts.split_zero.
Qed.

End LineForms.

(** ** The reach of the two lists, and spans below zero *)

Section Reach.
Context {F : Type} {HF : Float F} {HL : FloatLaws F}.

(** The left list leaves out the first token of the recording and the
    token before the reference token; the right list ends with the
    recording. *)
Lemma context_windows_reach (lines : list string) (p span : Z)
      (l r : list F) :
  0 <= p < Z.of_nat (List.length lines) ->
  context_windows lines p span = Ok (l, r) ->
  Z.of_nat (List.length l) <= Z.max 0 (p - 2) /\
  Z.of_nat (List.length r) <= Z.of_nat (List.length lines) - 1 - p.
Proof.
  intros Hp Hok.
  apply context_windows_Ok in Hok as (d & Hl & -> & Hr). split.
  - rewrite length_tl.
    apply left_window_Ok in Hl
      as [[_ ->] | (l_dat & init & last & Hdat & _ & ->)]; [simpl; lia|].
    pose proof (walk_left_length (t last) (rev (tl l_dat))) as Hw.
    rewrite length_rev, length_tl in Hw.
    apply comprehension_length in Hdat.
    rewrite PyListFacts.slice_length in Hdat.
    slice_bounds Hdat; lia.
  - apply right_window_Ok in Hr as (first & rest & Hdat & ->).
    pose proof (walk_right_length (t first) rest) as Hw.
    apply comprehension_length in Hdat.
    rewrite PyListFacts.slice_length in Hdat.
    pose proof (PyListFacts.bound_range (Z.of_nat (List.length lines))
                  (Z.min (Z.of_nat (List.length lines)) (p + span + 1))).
    unfold PyList.bound in Hdat at 2. simpl List.length in Hdat.
    destruct (Z.ltb_spec p 0); lia.
Qed.

(** With a span below zero that does not reach below position 0, the
    slice of the right window is empty and [r_dat[0]] raises. *)
Lemma context_windows_negative_span (lines : list string) (p span : Z) :
  forallb (well_formed F) lines = true ->
  0 <= p -> span < 0 -> 0 <= p + span + 1 ->
  context_windows lines p span = Raise IndexError.
Proof.
  intros Hwf Hp Hspan Hreach. unfold context_windows.
  destruct (left_window_total lines (Z.max 0 (p - span - 2)) p Hwf) as [d ->].
  cbn [bind]. unfold right_window.
  set (r_end := Z.min _ _).
  assert (E : PyList.slice lines p r_end = []).
  { apply length_zero_iff_nil. rewrite PyListFacts.slice_length.
    subst r_end. slice_cases; lia. }
  rewrite E. reflexivity.
Qed.

End Reach.

(** ** Further properties of the program *)

Section Further.
Context {F : Type} {HF : Float F} {HL : FloatLaws F}.

(** X1. What stands before the first line "#" is never read: a header
    [hdr] without a line "#" only moves the reference position by its
    length. *)
Theorem header_content_is_ignored (hdr rest : list string)
        (ref_pos span : Z) :
  PyList.index hash hdr = None ->
  get_context (hdr ++ hash :: rest) (Z.of_nat (List.length hdr) + ref_pos) span
  = get_context (hash :: rest) ref_pos span.
Proof.
  intros Hh. unfold get_context.
  rewrite (HeaderFacts.skip_header_hash hdr rest Hh).
  change (skip_header (hash :: rest)) with (rest, 0). cbv iota beta.
  f_equal. lia.
Qed.

(** X2. When no line is "#", the first line "#\n" ends the header just as
    a line "#" in its place would. *)
Theorem newline_delimiter_like_hash (hdr rest : list string)
        (ref_pos span : Z) :
  PyList.index hash hdr = None ->
  PyList.index hash rest = None ->
  PyList.index hash_nl hdr = None ->
  get_context (hdr ++ hash_nl :: rest) ref_pos span
  = get_context (hdr ++ hash :: rest) ref_pos span.
Proof.
  intros Hh Hr Hn. unfold get_context.
  rewrite (HeaderFacts.skip_header_hash_nl hdr rest Hh Hr Hn).
  now rewrite (HeaderFacts.skip_header_hash hdr rest Hh).
Qed.

(** X3. A list without a header line is read as if a line "#" stood in
    front of it: [ref_pos] counts the tokens from 1. *)
Theorem headerless_counts_from_one (lines : list string) (ref_pos span : Z) :
  PyList.index hash lines = None ->
  PyList.index hash_nl lines = None ->
  get_context lines ref_pos span = get_context (hash :: lines) ref_pos span.
Proof.
  intros Hh Hn. rewrite (get_context_no_header lines ref_pos span Hh Hn).
  unfold get_context.
  change (skip_header (hash :: lines)) with (lines, 0). cbv iota beta.
  f_equal. lia.
Qed.

(** X4. Without a line after the header [get_context] raises
    [IndexError], whatever the reference position and the span. *)
Theorem empty_recording_raises (lines : list string) (ref_pos span : Z) :
  body lines = [] ->
  get_context lines ref_pos span = Raise IndexError.
Proof.
  intros Hb. rewrite get_context_unfold, Hb.
  unfold context_windows, left_window, right_window.
  now rewrite !HeaderFacts.slice_nil.
Qed.

(** X5. On well-formed lines a span below zero that does not reach below
    position 0 raises [IndexError]. *)
Theorem negative_span_raises (lines : list string) (ref_pos span : Z) :
  forallb (well_formed F) (body lines) = true ->
  0 <= rebased lines ref_pos ->
  span < 0 ->
  0 <= rebased lines ref_pos + span + 1 ->
  get_context lines ref_pos span = Raise IndexError.
Proof.
  intros Hwf Hp Hspan Hreach. rewrite get_context_unfold.
  now apply context_windows_negative_span.
Qed.

(** X6. On lines that all parse, the two lists are those of the tokens:
    [get_context] returns [windows_of_tokens] of the tokens before the
    reference token, the reference token and the tokens after it. *)
Theorem get_context_on_tokens (lines : list string)
        (before : list token) (ref : token) (after : list token)
        (ref_pos span : Z) :
  comprehension (parse_line false) (body lines)
  = Ok (before ++ ref :: after) ->
  rebased lines ref_pos = Z.of_nat (List.length before) ->
  0 <= span ->
  get_context lines ref_pos span
  = Ok (windows_of_tokens before ref after (Z.to_nat span)).
Proof.
  intros Htok Hp Hspan. rewrite get_context_unfold, Hp.
  now apply context_windows_on_tokens.
Qed.

(** X8. On a valid input the left list has at most [p - 2] entries, [p]
    being the rebased reference position: the first token of the
    recording and the token before the reference token give no entry.
    The right list has at most one entry for each token after the
    reference token. *)
Theorem lists_within_recording (lines : list string) (ref_pos span : Z) :
  valid_input F lines ref_pos span ->
  exists l r,
    get_context lines ref_pos span = Ok (l, r) /\
    Z.of_nat (List.length l) <= Z.max 0 (rebased lines ref_pos - 2) /\
    Z.of_nat (List.length r)
    <= Z.of_nat (List.length (body lines)) - 1 - rebased lines ref_pos.
Proof.
  intros Hv. destruct (get_context_total _ _ _ Hv) as (l & r & Hok).
  exists l, r. split; [exact Hok|].
  rewrite get_context_unfold in Hok. destruct Hv as (_ & Hp & _).
  exact (context_windows_reach _ _ _ _ _ Hp Hok).
Qed.

(** X10. A label that begins with a break label is a break label whatever
    follows it. *)
Theorem is_break_by_prefix (w rest : string) :
  is_break w = true -> is_break (w ++ rest)%string = true.
Proof.
  unfold is_break. rewrite LabelFacts.upper_app.
  apply LabelFacts.startswith_app.
Qed.

(** X11. The test for a break label does not depend on the case of the
    letters a to z. *)
Theorem is_break_ignores_case (w : string) :
  is_break (PyStr.upper w) = is_break w.
Proof.
  unfold is_break. now rewrite LabelFacts.upper_idem.
Qed.

(** X12. A line of the form [time field label], alone or followed by a
    blank and more text, is read as the token with the number of [time]
    and the label [label], in the left and in the right window. *)
Theorem line_with_three_fields (b : bool) (s time field label rest : string)
        (x : F) :
  PyStr.strip s
  = (time ++ String " " (field ++ String " " (label ++ rest)))%string ->
  PyStr.has_blank time = false ->
  PyStr.has_blank field = false ->
  PyStr.has_blank label = false ->
  rest = EmptyString \/ (exists more, rest = String " " more) ->
  float_of time = Some x ->
  parse_line b s = Ok (Token x label).
Proof.
  intros Es Ht Hf Hl Hrest Hx.
  destruct b; [apply parse_line_strip|];
    exact (parse_line_fields _ _ _ _ _ _ Es Ht Hf Hl Hrest Hx).
Qed.

(** X13. White space around the lines does not matter: stripping every
    line beforehand gives the same result or the same exception. *)
Theorem stripped_lines_same_windows (lines : list string) (p span : Z) :
  context_windows (map PyStr.strip lines) p span
  = context_windows lines p span.
Proof.
  unfold context_windows.
  now rewrite length_map, left_window_stripped, right_window_stripped.
Qed.

(** X15. A token between two break labels has no speech rate: on a valid
    input with a break label on the line before and on the line after the
    reference token, the rate is [None]. *)
Theorem no_rate_between_breaks (lines : list string) (ref_pos span : Z) :
  valid_input F lines ref_pos span ->
  break_at F (body lines) (rebased lines ref_pos - 1) = true ->
  break_at F (body lines) (rebased lines ref_pos + 1) = true ->
  speechrate_at lines ref_pos span = Ok None.
Proof.
  intros Hv Hb Ha. destruct (get_context_total _ _ _ Hv) as (l & r & Hok).
  unfold speechrate_at. rewrite Hok. cbn [bind fst snd].
  rewrite get_context_unfold in Hok. destruct Hv as (_ & Hp & _).
  assert (l = []) as ->.
  { apply break_at_inv in Hb as Hb'. destruct Hb' as [Hpos _].
    eapply context_windows_break_before; [| exact Hb | exact Hok]. lia. }
  assert (r = []) as ->.
  { eapply context_windows_break_after; [| exact Ha | exact Hok]. lia. }
  reflexivity.
Qed.

End Further.

(** ** Full windows, larger spans and the sign of the rate *)

Section TokenWindows.
Context {F : Type} {HF : Float F} {HL : FloatLaws F}.

(** The tokens of a valid input, split at the reference token. *)
Lemma valid_input_tokens (lines : list string) (ref_pos span : Z) :
  valid_input F lines ref_pos span ->
  exists before ref after,
    comprehension (parse_line false) (body lines)
    = Ok (before ++ ref :: after) /\
    rebased lines ref_pos = Z.of_nat (List.length before).
Proof.
  intros (Hwf & Hp & _).
  destruct (comprehension_total (parse_line false) (body lines))
    as [tokens Htok].
  { eapply Forall_impl; [|exact (well_formed_all _ Hwf)].
    exact well_formed_Ok. }
  pose proof (comprehension_length _ _ _ Htok) as Hlen.
  destruct (nth_error tokens (Z.to_nat (rebased lines ref_pos)))
    as [ref|] eqn:E.
  - apply nth_error_split in E as (before & after & -> & Hb).
    exists before, ref, after. split; [exact Htok | lia].
  - apply nth_error_None in E. lia.
Qed.

Lemma windows_of_tokens_prefix (before : list token) (ref : token)
      (after : list token) (k k' : nat) :
  (k <= k')%nat ->
  (exists e, fst (windows_of_tokens before ref after k')
             = fst (windows_of_tokens before ref after k) ++ e) /\
  (exists e, snd (windows_of_tokens before ref after k')
             = snd (windows_of_tokens before ref after k) ++ e).
Proof.
  intros Hk. unfold windows_of_tokens. cbn [fst snd]. split.
  - destruct (rev before) as [|pred e]; [now exists []|].
    destruct (firstn_prefix (S k) (S k') (rev (tl before))) as [more ->];
      [lia|].
    destruct (walk_left_app (t pred) (firstn (S k) (rev (tl before))) more)
      as [rest ->].
    apply tl_prefix.
  - destruct (firstn_prefix k k' after Hk) as [more ->].
    apply walk_right_app.
Qed.

Lemma windows_of_tokens_full (before : list token) (ref : token)
      (after : list token) (k : nat) :
  (k + 2 <= List.length before)%nat ->
  (k <= List.length after)%nat ->
  Forall (fun tok => is_break (word tok) = false) (firstn k (rev before)) ->
  Forall (fun tok => is_break (word tok) = false) (firstn k after) ->
  List.length (fst (windows_of_tokens before ref after k)) = k /\
  List.length (snd (windows_of_tokens before ref after k)) = k.
Proof.
  intros Hb Ha Hleft Hright. unfold windows_of_tokens. cbn [fst snd]. split.
  - destruct before as [|first others]; [simpl in Hb; lia|].
    simpl List.length in Hb.
    change (tl (first :: others)) with others.
    change (rev (first :: others)) with (rev others ++ [first]) in *.
    assert (Hlen : (k < List.length (rev others))%nat)
      by (rewrite length_rev; lia).
    rewrite firstn_app in Hleft.
    replace (k - List.length (rev others))%nat with 0%nat in Hleft by lia.
    simpl firstn in Hleft. rewrite app_nil_r in Hleft.
    destruct (rev others ++ [first]) as [|pred e] eqn:E.
    { apply (f_equal (@List.length _)) in E.
      rewrite length_app in E. simpl in E. lia. }
    rewrite length_tl, walk_left_all, length_map, length_firstn; [lia|].
    now rewrite removelast_firstn.
  - now rewrite walk_right_all, length_map, length_firstn, Nat.min_l.
Qed.

End TokenWindows.

Section FurtherTokens.
Context {F : Type} {HF : Float F} {HL : FloatLaws F}.

(** X7. Full windows: when at least [span + 2] tokens stand before the
    reference token and [span] after it, and none of the [span] nearest
    tokens on either side carries a break label, each list has exactly
    [span] entries. *)
Theorem full_windows_have_span_entries (lines : list string)
        (before : list token) (ref : token) (after : list token)
        (ref_pos span : Z) :
  comprehension (parse_line false) (body lines)
  = Ok (before ++ ref :: after) ->
  rebased lines ref_pos = Z.of_nat (List.length before) ->
  0 <= span ->
  span + 2 <= Z.of_nat (List.length before) ->
  span <= Z.of_nat (List.length after) ->
  Forall (fun tok => is_break (word tok) = false)
    (firstn (Z.to_nat span) (rev before)) ->
  Forall (fun tok => is_break (word tok) = false)
    (firstn (Z.to_nat span) after) ->
  exists l r,
    get_context lines ref_pos span = Ok (l, r) /\
    Z.of_nat (List.length l) = span /\ Z.of_nat (List.length r) = span.
Proof.
  intros Htok Hp Hspan Hb Ha Hleft Hright.
  rewrite get_context_unfold, Hp.
  rewrite (context_windows_on_tokens _ _ _ _ _ Htok Hspan).
  destruct (windows_of_tokens_full before ref after (Z.to_nat span))
    as [Hl Hr]; [lia | lia | exact Hleft | exact Hright |].
  destruct (windows_of_tokens before ref after (Z.to_nat span)) as [l r].
  exists l, r. cbn [fst snd] in Hl, Hr. repeat split; lia.
Qed.

(** X9. A larger span only adds entries at the end: on a valid input the
    two lists for [span] are the beginnings of the two lists for any
    larger span. *)
Theorem larger_span_extends_lists (lines : list string)
        (ref_pos span span' : Z) :
  valid_input F lines ref_pos span ->
  span <= span' ->
  exists l r l' r',
    get_context lines ref_pos span = Ok (l, r) /\
    get_context lines ref_pos span' = Ok (l', r') /\
    (exists e, l' = l ++ e) /\ (exists e, r' = r ++ e).
Proof.
  intros Hv Hle.
  destruct (valid_input_tokens _ _ _ Hv) as (before & ref & after & Htok & Hp).
  destruct Hv as (_ & _ & Hspan).
  rewrite !get_context_unfold, Hp.
  rewrite (context_windows_on_tokens _ _ _ _ _ Htok Hspan).
  rewrite (context_windows_on_tokens _ _ _ _ span' Htok) by lia.
  destruct (windows_of_tokens_prefix before ref after
              (Z.to_nat span) (Z.to_nat span')) as [Hl Hr]; [lia|].
  destruct (windows_of_tokens before ref after (Z.to_nat span)) as [l r].
  destruct (windows_of_tokens before ref after (Z.to_nat span')) as [l' r'].
  now exists l, r, l', r'.
Qed.

(** X14. On a valid input whose end times never go down the speech rate
    is [None] or a number that is not negative, for floats whose sum of
    two numbers that are not negative, and whose quotient of such a
    number by a count, are not negative. *)
Theorem rate_is_not_negative (lines : list string) (ref_pos span : Z) :
  (forall x y : F, fle fzero x -> fle fzero y -> fle fzero (fadd x y)) ->
  (forall (x : F) (n : nat), fle fzero x -> fle fzero (fdiv x n)) ->
  valid_input F lines ref_pos span ->
  chronological F lines ->
  speechrate_at lines ref_pos span = Ok None \/
  exists v, speechrate_at lines ref_pos span = Ok (Some v) /\ fle fzero v.
Proof.
  intros Hadd Hdiv Hv (tokens & Htok & Hnd).
  destruct (get_context_total _ _ _ Hv) as (l & r & Hok).
  unfold speechrate_at. rewrite Hok. cbn [bind fst snd].
  rewrite get_context_unfold in Hok.
  destruct (context_windows_nonneg _ _ _ _ _ _ Htok Hnd Hok) as [Hl Hr].
  assert (Hmax : forall x d, Forall (fle fzero) (x :: d) ->
                             fle fzero (py_max x d)).
  { intros x d Hall. destruct (py_max_is_max x d) as [Hin _].
    rewrite Forall_forall in Hall. now apply Hall. }
  destruct l as [|x l], r as [|y r]; cbn.
  - now left.
  - right. eexists. split; [reflexivity|]. now apply Hdiv, Hmax.
  - right. eexists. split; [reflexivity|]. now apply Hdiv, Hmax.
  - right. eexists. split; [reflexivity|].
    apply Hdiv, Hadd; now apply Hmax.
Qed.

End FurtherTokens.

(** ** The further properties on the sample recordings *)

Lemma Q_fadd_nonneg (x y : Q) :
  fle fzero x -> fle fzero y -> fle fzero (fadd x y).
Proof.
  rewrite !fle_Q. cbn [fadd fzero Q_Float]. intros Hx Hy.
  rewrite Qred_correct.
  apply (Qle_trans _ (0 + 0)%Q); [discriminate|].
  now apply Qplus_le_compat.
Qed.

Lemma Q_fdiv_nonneg (x : Q) (n : nat) : fle fzero x -> fle fzero (fdiv x n).
Proof.
  rewrite !fle_Q. cbn [fdiv fzero Q_Float]. intros Hx.
  rewrite Qred_correct. apply Qmult_le_0_compat; [exact Hx|].
  apply Qinv_le_0_compat.
  change (inject_Z 0 <= inject_Z (Z.of_nat n))%Q.
  rewrite <- Zle_Qle. lia.
Qed.

Lemma header_content_is_ignored_witness :
  PyList.index hash ["header"; "columns"]%string = None /\
  get_context (F:=Q) with_header (2 + 4) 5
  = get_context (hash :: three_field_lines) 4 5.
Proof.
  split; [reflexivity|].
  exact (@header_content_is_ignored Q Q_Float ["header"; "columns"]%string
           three_field_lines 4 5 eq_refl).
Defined.

Lemma newline_delimiter_like_hash_witness :
  get_context (F:=Q) ("header"%string :: hash_nl :: words) 5 2
  = get_context ("header"%string :: hash :: words) 5 2.
Proof.
  exact (@newline_delimiter_like_hash Q Q_Float ["header"%string] words 5 2
           eq_refl eq_refl eq_refl).
Defined.

Lemma headerless_counts_from_one_witness :
  get_context (F:=Q) words 5 2 = get_context recording 5 2.
Proof.
  exact (@headerless_counts_from_one Q Q_Float words 5 2 eq_refl eq_refl).
Defined.

Lemma empty_recording_raises_witness :
  body ["header"%string; hash] = [] /\
  get_context (F:=Q) ["header"%string; hash] 2 3 = Raise IndexError.
Proof.
  split; [reflexivity|].
  exact (@empty_recording_raises Q Q_Float ["header"%string; hash] 2 3 eq_refl).
Defined.

Lemma negative_span_raises_witness :
  get_context (F:=Q) recording 3 (-1) = Raise IndexError.
Proof.
  apply (@negative_span_raises Q Q_Float recording 3 (-1));
    vm_compute; congruence.
Defined.

Lemma get_context_on_tokens_witness :
  get_context (F:=Q) recording 3 5
  = Ok (windows_of_tokens
          [Token (1 # 4)%Q "<SIL>"; Token (1 # 2)%Q "the"]
          (Token 1%Q "cat")
          [Token (3 # 2)%Q "sat"; Token (5 # 2)%Q "on"; Token 3%Q "<NOISE>"]
          5).
Proof.
  apply (@get_context_on_tokens Q Q_Float Q_FloatLaws recording
           [Token (1 # 4)%Q "<SIL>"; Token (1 # 2)%Q "the"]
           (Token 1%Q "cat")
           [Token (3 # 2)%Q "sat"; Token (5 # 2)%Q "on"; Token 3%Q "<NOISE>"]
           3 5);
    vm_compute; congruence.
Defined.

Lemma full_windows_have_span_entries_witness :
  exists l r,
    get_context (F:=Q) recording 4 1 = Ok (l, r) /\
    Z.of_nat (List.length l) = 1 /\ Z.of_nat (List.length r) = 1.
Proof.
  apply (@full_windows_have_span_entries Q Q_Float Q_FloatLaws recording
           [Token (1 # 4)%Q "<SIL>"; Token (1 # 2)%Q "the"; Token 1%Q "cat"]
           (Token (3 # 2)%Q "sat")
           [Token (5 # 2)%Q "on"; Token 3%Q "<NOISE>"]
           4 1);
    try (vm_compute; congruence);
    repeat constructor.
Defined.

Lemma lists_within_recording_witness :
  valid_input Q recording 3 5 /\
  exists l r,
    get_context recording 3 5 = Ok (l, r) /\
    Z.of_nat (List.length l) <= Z.max 0 (rebased recording 3 - 2) /\
    Z.of_nat (List.length r)
    <= Z.of_nat (List.length (body recording)) - 1 - rebased recording 3.
Proof.
  assert (Hv : valid_input Q recording 3 5) by valid_by_computation.
  split; [exact Hv|].
  exact (@lists_within_recording Q Q_Float Q_FloatLaws recording 3 5 Hv).
Defined.

Lemma larger_span_extends_lists_witness :
  valid_input Q recording 4 1 /\
  exists l r l' r',
    get_context recording 4 1 = Ok (l, r) /\
    get_context recording 4 3 = Ok (l', r') /\
    (exists e, l' = l ++ e) /\ (exists e, r' = r ++ e).
Proof.
  assert (Hv : valid_input Q recording 4 1) by valid_by_computation.
  split; [exact Hv|].
  apply (@larger_span_extends_lists Q Q_Float Q_FloatLaws recording 4 1 3 Hv).
  lia.
Defined.

Lemma is_break_by_prefix_witness :
  is_break "<sil>" = true /\ is_break "<sil>; U; U; null" = true.
Proof.
  split; [reflexivity|].
  exact (is_break_by_prefix "<sil>" "; U; U; null" eq_refl).
Defined.

Lemma line_with_three_fields_witness :
  parse_line (F:=Q) true "  0.5 122 <SIL>; U; U; null"
  = Ok (Token (1 # 2)%Q "<SIL>;").
Proof.
  apply (@line_with_three_fields Q Q_Float Q_FloatLaws true
           "  0.5 122 <SIL>; U; U; null" "0.5" "122" "<SIL>;" " U; U; null"
           (1 # 2)%Q); try reflexivity.
  right. now exists "U; U; null"%string.
Defined.

Lemma rate_is_not_negative_witness :
  valid_input Q recording 3 5 /\ chronological Q recording /\
  (speechrate_at (F:=Q) recording 3 5 = Ok None \/
   exists v, speechrate_at recording 3 5 = Ok (Some v) /\ fle fzero v).
Proof.
  assert (Hv : valid_input Q recording 3 5) by valid_by_computation.
  assert (Hc : chronological Q recording) by chronological_by_computation.
  split; [exact Hv | split; [exact Hc|]].
  exact (@rate_is_not_negative Q Q_Float Q_FloatLaws recording 3 5
           Q_fadd_nonneg Q_fdiv_nonneg Hv Hc).
Defined.

Lemma no_rate_between_breaks_witness :
  valid_input Q pauses 4 3 /\
  speechrate_at (F:=Q) pauses 4 3 = Ok None.
Proof.
  assert (Hv : valid_input Q pauses 4 3) by valid_by_computation.
  split; [exact Hv|].
  apply (@no_rate_between_breaks Q Q_Float Q_FloatLaws pauses 4 3 Hv);
    vm_compute; reflexivity.
Defined.

(** ** The lines that [get_context] reads *)

(** Two lists of the same length that agree between the bounds of a slice
    have the same slice. *)
Lemma slice_ext {A : Type} (l l' : list A) (a b : Z) :
  List.length l = List.length l' ->
  (forall i : nat,
      PyList.bound (Z.of_nat (List.length l)) a <= Z.of_nat i
        < PyList.bound (Z.of_nat (List.length l)) b ->
      nth_error l i = nth_error l' i) ->
  PyList.slice l a b = PyList.slice l' a b.
Proof.
  intros Hlen Hagree. apply nth_error_ext. intros k.
  pose proof (PyListFacts.slice_length l a b) as H1.
  pose proof (PyListFacts.slice_length l' a b) as H2.
  rewrite <- Hlen in H2.
  destruct (nth_error (PyList.slice l a b) k) as [x|] eqn:E.
  - assert (Hk : (k < List.length (PyList.slice l a b))%nat)
      by (apply nth_error_Some; congruence).
    destruct (nth_error (PyList.slice l' a b) k) as [x'|] eqn:E'.
    + apply PyListFacts.slice_nth_error in E, E'.
      rewrite <- Hlen in E'.
      pose proof (PyListFacts.bound_range (Z.of_nat (List.length l)) a
                    (Nat2Z.is_nonneg _)).
      rewrite Hagree in E by lia. congruence.
    + apply nth_error_None in E'. lia.
  - apply nth_error_None in E. symmetry. apply nth_error_None. lia.
Qed.

Section Readers.
Context {F : Type} {HF : Float F} {HL : FloatLaws F}.

(** The lines outside the two slices are not read: two recordings of the
    same length that agree on the lines of the slices give the same
    result. *)
Lemma context_windows_local (lines lines' : list string) (p span : Z) :
  List.length lines' = List.length lines ->
  0 <= p < Z.of_nat (List.length lines) -> 0 <= span ->
  (forall i, Z.max 0 (p - span - 2) <= i
               < Z.min (Z.of_nat (List.length lines)) (p + span + 1) ->
             nth_error lines' (Z.to_nat i) = nth_error lines (Z.to_nat i)) ->
  context_windows lines' p span = context_windows lines p span.
Proof.
  intros Hlen Hp Hspan Hagree. unfold context_windows, left_window, right_window.
  rewrite Hlen.
  set (a := Z.max 0 (p - span - 2)) in *.
  set (r_end := Z.min _ _) in *.
  assert (Ha : PyList.bound (Z.of_nat (List.length lines')) a = a)
    by (unfold PyList.bound; destruct (Z.ltb_spec a 0); lia).
  assert (Hb : PyList.bound (Z.of_nat (List.length lines')) p = p)
    by (unfold PyList.bound; destruct (Z.ltb_spec p 0); lia).
  assert (Hr : PyList.bound (Z.of_nat (List.length lines')) r_end = r_end)
    by (unfold PyList.bound; destruct (Z.ltb_spec r_end 0); lia).
  rewrite (slice_ext lines' lines a p Hlen),
          (slice_ext lines' lines p r_end Hlen); [reflexivity | |].
  - intros i Hi. rewrite Hb, Hr in Hi.
    rewrite <- (Nat2Z.id i). apply Hagree. lia.
  - intros i Hi. rewrite Ha, Hb in Hi.
    rewrite <- (Nat2Z.id i). apply Hagree. lia.
Qed.

(** [context_windows] returns when the lines of its two slices can be
    read, whatever the other lines are. *)
Lemma context_windows_readable (lines : list string) (p span : Z) :
  0 <= p < Z.of_nat (List.length lines) -> 0 <= span ->
  (forall i s, Z.max 0 (p - span - 2) <= i
                 < Z.min (Z.of_nat (List.length lines)) (p + span + 1) ->
               nth_error lines (Z.to_nat i) = Some s ->
               exists tok, read_at p i s = Ok tok) ->
  exists l r, context_windows lines p span = Ok (l, r).
Proof.
  intros Hp Hspan Hread. unfold context_windows.
  set (a := Z.max 0 (p - span - 2)) in *.
  set (r_end := Z.min _ _) in *.
  assert (Ha : PyList.bound (Z.of_nat (List.length lines)) a = a)
    by (unfold PyList.bound; destruct (Z.ltb_spec a 0); lia).
  assert (Hb : PyList.bound (Z.of_nat (List.length lines)) p = p)
    by (unfold PyList.bound; destruct (Z.ltb_spec p 0); lia).
  assert (Hr : PyList.bound (Z.of_nat (List.length lines)) r_end = r_end)
    by (unfold PyList.bound; destruct (Z.ltb_spec r_end 0); lia).
  destruct (left_window_slice_total lines a p) as [d ->].
  { apply Forall_forall. intros y Hy.
    apply In_nth_error in Hy as [j Hj].
    assert (Hlt : (j < List.length (PyList.slice lines a p))%nat)
      by (apply nth_error_Some; congruence).
    rewrite PyListFacts.slice_length, Ha, Hb in Hlt.
    apply PyListFacts.slice_nth_error in Hj. rewrite Ha in Hj.
    destruct (Hread (a + Z.of_nat j) y) as [tok Htok]; [lia | |].
    - now replace (Z.to_nat (a + Z.of_nat j)) with (Z.to_nat a + j)%nat by lia.
    - unfold read_at in Htok.
      destruct (Z.leb_spec p (a + Z.of_nat j)); [lia|].
      unfold well_formed. now rewrite Htok. }
  cbn [bind]. unfold right_window.
  destruct (comprehension_total (parse_line true) (PyList.slice lines p r_end))
    as [r_dat Hdat].
  { apply Forall_forall. intros y Hy.
    apply In_nth_error in Hy as [j Hj].
    assert (Hlt : (j < List.length (PyList.slice lines p r_end))%nat)
      by (apply nth_error_Some; congruence).
    rewrite PyListFacts.slice_length, Hb, Hr in Hlt.
    apply PyListFacts.slice_nth_error in Hj. rewrite Hb in Hj.
    destruct (Hread (p + Z.of_nat j) y) as [tok Htok]; [lia | |].
    - now replace (Z.to_nat (p + Z.of_nat j)) with (Z.to_nat p + j)%nat by lia.
    - exists tok. unfold read_at in Htok.
      now destruct (Z.leb_spec p (p + Z.of_nat j)); [|lia]. }
  rewrite Hdat. cbn [bind].
  pose proof (comprehension_length _ _ _ Hdat) as Hlen.
  rewrite PyListFacts.slice_length, Hb, Hr in Hlen.
  destruct r_dat as [|first rest]; [simpl in Hlen; lia|].
  cbn. eauto.
Qed.

(** A reference position at or beyond the end: when the lines of the left
    slice can be read, [r_dat] is empty and [r_dat[0]] raises. *)
Lemma context_windows_beyond_read (lines : list string) (p span : Z) :
  Z.of_nat (List.length lines) <= p ->
  (forall i s, Z.max 0 (p - span - 2) <= i ->
               nth_error lines (Z.to_nat i) = Some s ->
               exists tok, parse_line false s = Ok tok) ->
  context_windows lines p span = Raise IndexError.
Proof.
  intros Hp Hread. unfold context_windows.
  set (a := Z.max 0 (p - span - 2)) in *.
  assert (Ha : PyList.bound (Z.of_nat (List.length lines)) a
               = Z.min a (Z.of_nat (List.length lines)))
    by (unfold PyList.bound; destruct (Z.ltb_spec a 0); lia).
  assert (Hb : PyList.bound (Z.of_nat (List.length lines)) p
               = Z.of_nat (List.length lines))
    by (unfold PyList.bound; destruct (Z.ltb_spec p 0); lia).
  destruct (left_window_slice_total lines a p) as [d ->].
  { apply Forall_forall. intros y Hy.
    apply In_nth_error in Hy as [j Hj].
    assert (Hlt : (j < List.length (PyList.slice lines a p))%nat)
      by (apply nth_error_Some; congruence).
    rewrite PyListFacts.slice_length, Ha, Hb in Hlt.
    apply PyListFacts.slice_nth_error in Hj. rewrite Ha in Hj.
    destruct (Hread (Z.min a (Z.of_nat (List.length lines)) + Z.of_nat j) y)
      as [tok Htok]; [lia | |].
    - now rewrite Z2Nat.inj_add, Nat2Z.id by lia.
    - unfold well_formed. now rewrite Htok. }
  cbn [bind]. unfold right_window.
  set (r_end := Z.min _ _).
  assert (E : PyList.slice lines p r_end = []).
  { apply length_zero_iff_nil. rewrite PyListFacts.slice_length.
    subst r_end. slice_cases; lia. }
  rewrite E. reflexivity.
Qed.

(** Behind a header the reference position is the index in the whole
    list: the token at [ref_pos] is the token at [ref_pos] minus the
    length of the header and its delimiter among the lines after it. *)
Lemma get_context_behind_header (hdr rest : list string) (p span : Z) :
  PyList.index hash hdr = None ->
  get_context (hdr ++ hash :: rest) (Z.of_nat (List.length hdr) + 1 + p) span
  = context_windows rest p span.
Proof.
  intros Hh. unfold get_context.
  rewrite (HeaderFacts.skip_header_hash hdr rest Hh).
  f_equal. lia.
Qed.

End Readers.

(** ** Exceptions behind a header *)

Section Exceptions.
Context {F : Type} {HF : Float F} {HL : FloatLaws F}.

Lemma parse_line_bad_time (b : bool) (s time trans : string) :
  PyStr.strip s = (time ++ String " " trans)%string ->
  PyStr.has_blank time = false ->
  float_of (if b then PyStr.strip time else time) = None ->
  parse_line b s = Raise ValueError.
Proof.
  intros Es Ht Hf. unfold parse_line.
  rewrite Es, (LineFacts.split_blank _ _ 0 Ht), LineFacts.split_zero.
  now rewrite Hf.
Qed.

Lemma parse_line_missing_label (b : bool) (s time trans : string) (x : F) :
  PyStr.strip s = (time ++ String " " trans)%string ->
  PyStr.has_blank time = false ->
  float_of (if b then PyStr.strip time else time) = Some x ->
  PyStr.has_blank trans = false ->
  parse_line b s = Raise IndexError.
Proof.
  intros Es Ht Hf Htr. unfold parse_line.
  rewrite Es, (LineFacts.split_blank _ _ 0 Ht), LineFacts.split_zero, Hf.
  now rewrite (LineFacts.split_no_blank trans 2 Htr).
Qed.

(** C8, as the program has it, for a recording behind a header.  A line
    that cannot be read raises a built-in exception, not a [ParseError]:
    [ValueError] when the stripped line has no blank or its first field is
    no number, [IndexError] when no second field follows the first blank.
    [get_context] reads the lines of its two slices only: it raises the
    exception of the first of them that cannot be read, it returns when
    all of them can be read, and its result does not depend on the other
    lines.  A reference position at or beyond the end raises [IndexError]
    when the lines of the left slice can be read. *)
Theorem get_context_exceptions :
  (forall (b : bool) (s : string),
      PyStr.has_blank (PyStr.strip s) = false ->
      parse_line b s = Raise ValueError) /\
  (forall (b : bool) (s time trans : string),
      PyStr.strip s = (time ++ String " " trans)%string ->
      PyStr.has_blank time = false ->
      float_of (F:=F) (if b then PyStr.strip time else time) = None ->
      parse_line b s = Raise ValueError) /\
  (forall (b : bool) (s time trans : string) (x : F),
      PyStr.strip s = (time ++ String " " trans)%string ->
      PyStr.has_blank time = false ->
      float_of (if b then PyStr.strip time else time) = Some x ->
      PyStr.has_blank trans = false ->
      parse_line b s = Raise IndexError) /\
  (forall hdr rest p span i s e,
      PyList.index hash hdr = None ->
      0 <= p < Z.of_nat (List.length rest) -> 0 <= span ->
      in_slices (Z.of_nat (List.length rest)) p span i ->
      nth_error rest (Z.to_nat i) = Some s ->
      read_at p i s = Raise e ->
      (forall j s',
          in_slices (Z.of_nat (List.length rest)) p span j -> j < i ->
          nth_error rest (Z.to_nat j) = Some s' ->
          exists tok, read_at p j s' = Ok tok) ->
      get_context (with_header_lines hdr rest) (index_behind hdr p) span
      = Raise e) /\
  (forall hdr rest p span,
      PyList.index hash hdr = None ->
      0 <= p < Z.of_nat (List.length rest) -> 0 <= span ->
      (forall i s,
          in_slices (Z.of_nat (List.length rest)) p span i ->
          nth_error rest (Z.to_nat i) = Some s ->
          exists tok, read_at p i s = Ok tok) ->
      exists l r,
        get_context (with_header_lines hdr rest) (index_behind hdr p) span
        = Ok (l, r)) /\
  (forall hdr rest rest' p span,
      PyList.index hash hdr = None ->
      List.length rest' = List.length rest ->
      0 <= p < Z.of_nat (List.length rest) -> 0 <= span ->
      (forall i,
          in_slices (Z.of_nat (List.length rest)) p span i ->
          nth_error rest' (Z.to_nat i) = nth_error rest (Z.to_nat i)) ->
      get_context (with_header_lines hdr rest') (index_behind hdr p) span
      = get_context (with_header_lines hdr rest) (index_behind hdr p) span) /\
  (forall hdr rest p span,
      PyList.index hash hdr = None ->
      Z.of_nat (List.length rest) <= p ->
      (forall i s,
          Z.max 0 (p - span - 2) <= i ->
          nth_error rest (Z.to_nat i) = Some s ->
          exists tok, parse_line false s = Ok tok) ->
      get_context (with_header_lines hdr rest) (index_behind hdr p) span
      = Raise IndexError).
Proof.
  unfold with_header_lines, index_behind, in_slices.
  split; [intros b s; apply parse_line_no_blank|].
  split; [intros b s time trans; apply parse_line_bad_time|].
  split; [intros b s time trans x; apply parse_line_missing_label|].
  split; [|split; [|split]].
  - intros hdr rest p span i s e Hh Hp Hspan Hi Hs He Hbefore.
    rewrite (get_context_behind_header _ _ _ _ Hh).
    apply (context_windows_malformed _ _ _ _ _ _ Hp Hspan Hi Hs He).
    intros j s' Hj Hs'. apply (Hbefore j s'); [lia | lia | exact Hs'].
  - intros hdr rest p span Hh Hp Hspan Hread.
    rewrite (get_context_behind_header _ _ _ _ Hh).
    now apply context_windows_readable.
  - intros hdr rest rest' p span Hh Hlen Hp Hspan Hagree.
    rewrite !(get_context_behind_header _ _ _ _ Hh).
    now apply context_windows_local.
  - intros hdr rest p span Hh Hp Hread.
    rewrite (get_context_behind_header _ _ _ _ Hh).
    now apply context_windows_beyond_read.
Qed.

End Exceptions.

(** ** Lists without a header *)

(** C4 on a list without a header.  "sat" at index 4 follows the pause at
    index 3, yet the left list has an entry; "cat" at index 2 precedes
    the pause, yet the right list has an entry: line 101 has moved the
    reference position one line back.  Behind a header line the same two
    tokens give an empty left list and an empty right list. *)
Theorem break_neighbour_missed_without_header :
  break_at Q headerless 3 = true /\
  get_context (F:=Q) headerless 4 5 = Ok ([1 # 2], [1 # 2; 1])%Q /\
  get_context (F:=Q) headerless 2 5 = Ok ([], [1 # 2])%Q /\
  get_context (F:=Q) (hash :: headerless) 5 5 = Ok ([], [1 # 2])%Q /\
  get_context (F:=Q) (hash :: headerless) 3 5 = Ok ([], []).
Proof.
  repeat split; vm_compute; reflexivity.
Qed.

(** C7 on a list without a header.  With [ref_pos = 0], the first token,
    the left list has an entry, and with [ref_pos = 5], the last token,
    the right list has one: line 101 has moved the reference position to
    -1 and to 4.  Behind a header line the first token gives an empty
    left list and the last token an empty right list. *)
Theorem ends_missed_without_header :
  get_context (F:=Q) headerless 0 9 = Ok ([1 # 2], [])%Q /\
  get_context (F:=Q) headerless 5 1 = Ok ([], [1 # 2])%Q /\
  get_context (F:=Q) (hash :: headerless) 1 9 = Ok ([], [1 # 4; 3 # 4])%Q /\
  get_context (F:=Q) (hash :: headerless) 6 1 = Ok ([1 # 2], [])%Q.
Proof.
  repeat split; vm_compute; reflexivity.
Qed.

(** C10 on a list without a header.  With [ref_pos = 0] and span 0 the
    call raises [IndexError] instead of returning two empty lists: line
    101 has moved the reference position to -1, the slice [lines[-1:0]]
    is empty and [r_dat[0]] is out of range.  Behind a header line the
    first token gives two empty lists and the rate [None]. *)
Theorem span_zero_raises_without_header :
  get_context (F:=Q) headerless 0 0 = Raise IndexError /\
  speechrate_at (F:=Q) headerless 0 0 = Raise IndexError /\
  get_context (F:=Q) (hash :: headerless) 1 0 = Ok ([], []) /\
  speechrate_at (F:=Q) (hash :: headerless) 1 0 = Ok None.
Proof.
  repeat split; vm_compute; reflexivity.
Qed.

(** ** Exceptions on the sample recordings *)

Lemma get_context_exceptions_witness :
  parse_line (F:=Q) false "0.5" = Raise ValueError /\
  parse_line (F:=Q) true "x 122 the" = Raise ValueError /\
  parse_line (F:=Q) false "0.5 the" = Raise IndexError /\
  get_context (F:=Q) ("header"%string :: short_line) 4 1 = Raise IndexError /\
  (exists l r, get_context (F:=Q) ("header"%string :: damaged) 7 1 = Ok (l, r)) /\
  get_context (F:=Q) ("header"%string :: damaged) 7 1
  = get_context ("header"%string :: hash :: "0.1 122 er"%string :: words) 7 1 /\
  get_context (F:=Q) ("header"%string :: recording) 8 2 = Raise IndexError.
Proof.
  destruct (@get_context_exceptions Q Q_Float)
    as (Hblank & Htime & Hlabel & Hfirst & Hread & Hlocal & Hbeyond).
  split; [apply Hblank; reflexivity|].
  split; [apply (Htime true _ "x"%string "122 the"%string); reflexivity|].
  split; [apply (Hlabel false _ "0.5"%string "the"%string (1 # 2)%Q);
          reflexivity|].
  split.
  { apply (Hfirst ["header"%string]
             ["0.25 122 a"; "0.5 the"; "1.0 122 c"]%string
             2 1 1 "0.5 the"%string IndexError);
      try reflexivity; try (unfold in_slices; simpl; lia).
    intros j s' Hj Hlt Hs'. unfold in_slices in Hj. simpl in Hj.
    assert (j = 0) as -> by lia.
    vm_compute in Hs'. injection Hs' as <-.
    eexists. vm_compute. reflexivity. }
  split.
  { apply (Hread ["header"%string] ("junk"%string :: words) 5 1);
      try reflexivity; try (simpl; lia).
    intros i s Hi Hs. unfold in_slices in Hi. simpl in Hi.
    assert (i = 2 \/ i = 3 \/ i = 4 \/ i = 5 \/ i = 6) as Hcases by lia.
    destruct Hcases as [-> | [-> | [-> | [-> | ->]]]];
      vm_compute in Hs; injection Hs as <-;
      eexists; vm_compute; reflexivity. }
  split.
  { apply (Hlocal ["header"%string] ("0.1 122 er"%string :: words)
             ("junk"%string :: words) 5 1);
      try reflexivity; try (simpl; lia).
    intros i Hi. unfold in_slices in Hi. simpl in Hi.
    assert (i = 2 \/ i = 3 \/ i = 4 \/ i = 5 \/ i = 6) as Hcases by lia.
    destruct Hcases as [-> | [-> | [-> | [-> | ->]]]]; reflexivity. }
  apply (Hbeyond ["header"%string] words 6 2); try reflexivity; try (simpl; lia).
  intros i s Hi Hs.
  destruct (Z.le_gt_cases 6 i) as [Hbig | Hsmall].
  - assert (E : nth_error words (Z.to_nat i) = None)
      by (apply nth_error_None; simpl; lia).
    congruence.
  - assert (i = 2 \/ i = 3 \/ i = 4 \/ i = 5) as Hcases by lia.
    destruct Hcases as [-> | [-> | [-> | ->]]];
      vm_compute in Hs; injection Hs as <-;
      eexists; vm_compute; reflexivity.
Defined.
